(** * Channel format selection and channel decoding

    A shallow embedding of two Go components of the rollup's channel
    protocol, and the properties of them that the specification states:

    - [Batcher]: [DynamicEthChannelConfig.ChannelConfig]
      (op-batcher/batcher/channel_config_provider.go), which picks the
      calldata or the blob channel configuration from a fee quote;
    - [Derive]: [ChannelInReader]
      (op-node/rollup/derive/channel_in_reader.go), the streaming reader
      that turns the bytes of one channel into batches and tracks the L1
      origin.

    Both are written with explicit state passing: a method with a pointer
    receiver takes the receiver's value and returns the new one.  What the
    Go code obtains from other packages (the fee oracle, zlib, RLP, the
    protocol constants) enters as an argument. *)

From Stdlib Require Import ZArith List Bool String Lia.
Import ListNotations.
Open Scope Z_scope.

(** ** Go's fixed-width integers

    A [uint64] or [int64] value is a [Z] in the type's range; conversions
    and arithmetic wrap around modulo 2^64 as Go's do. *)
Module GoInt.

Definition uint64 (x : Z) : Z := x mod 2 ^ 64.

Definition int64 (x : Z) : Z := (x + 2 ^ 63) mod 2 ^ 64 - 2 ^ 63.

Lemma uint64_range (x : Z) : 0 <= uint64 x < 2 ^ 64.
Proof. unfold uint64. apply Z.mod_pos_bound. lia. Qed.

Lemma int64_range (x : Z) : - 2 ^ 63 <= int64 x < 2 ^ 63.
Proof.
  unfold int64.
  pose proof (Z.mod_pos_bound (x + 2 ^ 63) (2 ^ 64) ltac:(lia)). lia.
Qed.

Lemma uint64_id (x : Z) : 0 <= x < 2 ^ 64 -> uint64 x = x.
Proof. intros H. unfold uint64. now apply Z.mod_small. Qed.

Lemma int64_id (x : Z) : - 2 ^ 63 <= x < 2 ^ 63 -> int64 x = x.
Proof. intros H. unfold int64. rewrite Z.mod_small; lia. Qed.

End GoInt.

(** ** Errors

    Go's [error] values as far as the two files tell them apart: the
    sentinel [io.EOF], an error built by [fmt.Errorf] (its format and its
    arguments, here the block identities it prints), and an error handed
    up from a library (the fee oracle, zlib, RLP), known by its text. *)
Definition common_Hash := list Byte.byte.

Record BlockID := mkBlockID { id_Hash : common_Hash; id_Number : Z }.

Inductive error :=
| io_EOF
| fmt_Errorf (format : string) (args : list BlockID)
| lib_error (text : string).

Definition BlockID_eq_dec (a b : BlockID) : {a = b} + {a <> b}.
Proof.
  decide equality; [apply Z.eq_dec | apply (list_eq_dec Byte.byte_eq_dec)].
Defined.

Definition error_eq_dec (a b : error) : {a = b} + {a <> b}.
Proof.
  decide equality;
    [apply (list_eq_dec BlockID_eq_dec) | apply string_dec | apply string_dec].
Defined.

(** ** The batcher's channel configuration provider *)
Module Batcher.
Import GoInt.

(** The protocol constants that the provider reads from go-ethereum's
    [params] package and from the repository's [eth] package.  Their
    declarations are outside the files at hand, so the provider takes them
    as a parameter: [TxDataNonZeroGasEIP2028] is the gas per non-zero
    calldata byte, [TxGas] the base gas of a transaction, [BlobSize] the
    size of a blob slot and [MaxBlobDataSize] the usable data capacity of a
    blob. *)
Record ProtocolParams := mkParams {
  TxDataNonZeroGasEIP2028 : Z;   (* uint64 *)
  TxGas : Z;                     (* uint64 *)
  BlobSize : Z;                  (* untyped constant *)
  MaxBlobDataSize : Z            (* untyped constant *)
}.

(** Modelled from the spec: the values of the four protocol constants,
    which [params/protocol_params.go] of go-ethereum and
    [op-service/eth/blob.go] declare and the files at hand only name (the
    spec calls them per-non-zero-byte gas, base transaction gas, blob slot
    size and per-blob usable data capacity). *)
Definition mainnet : ProtocolParams :=
  {| TxDataNonZeroGasEIP2028 := 16;
     TxGas := 21000;
     BlobSize := 4096 * 32;
     MaxBlobDataSize := (4 * 31 + 3) * 1024 - 4 |}.

(** Modelled from the spec: the [ChannelConfig] struct is declared outside
    the files at hand.  These are the fields the spec lists (maximum bytes
    per frame, target number of frames per channel, whether a channel may
    span several transactions) under the names the provider and its
    comment use; [MaxFrameSize] is a [uint64] and [TargetNumFrames] an
    [int], as the conversions in the provider's method require. *)
Record ChannelConfig := mkChannelConfig {
  MaxFrameSize : Z;          (* uint64 *)
  TargetNumFrames : Z;       (* int *)
  MultiFrameTxs : bool
}.

Definition ChannelConfig_eq_dec (a b : ChannelConfig) : {a = b} + {a <> b}.
Proof. decide equality; try apply Z.eq_dec; apply bool_dec. Defined.

(** [latestConfig] is a [*ChannelConfig]; the only addresses the provider
    ever takes are those of its own two configuration fields. *)
Inductive ConfigPtr := addr_blobConfig | addr_calldataConfig.

(** What [GasPricer.SuggestGasPriceCaps] hands back: three [*big.Int] and
    no error, or an error. *)
Record GasPriceCaps := mkCaps { tipCap : Z; baseFee : Z; blobBaseFee : Z }.

Definition PricerReply : Type := GasPriceCaps + error.

(** A [GasPricer] is an interface value.  The oracle behind it is outside
    the files at hand; it is known here by what it answers to its n-th
    request (a request that times out or is cancelled answers with an
    error).  A nil interface value is [None]. *)
Definition GasPricer : Type := nat -> PricerReply.

(** The struct.  Its logger and its lifecycle context are collaborators
    the caller hands in: what is logged is part of a call's result, and
    the context shows in whether the oracle's answer is an error. *)
Record DynamicEthChannelConfig := mkDynamicEthChannelConfig {
  timeout : Z;
  gasPricer : option GasPricer;
  blobConfig : ChannelConfig;
  calldataConfig : ChannelConfig;
  latestConfig : ConfigPtr
}.

Definition deref (dec : DynamicEthChannelConfig) (p : ConfigPtr) : ChannelConfig :=
  match p with
  | addr_blobConfig => blobConfig dec
  | addr_calldataConfig => calldataConfig dec
  end.

(** The structured log line of one decision. *)
Inductive LogLevel := LvlWarn | LvlInfo.

Inductive LogValue := LogInt (z : Z) | LogErr (e : error).

Record LogRecord := mkLog {
  log_lvl : LogLevel;
  log_msg : string;
  log_ctx : list (string * LogValue)
}.

Fixpoint log_get (k : string) (ctx : list (string * LogValue)) : option LogValue :=
  match ctx with
  | [] => None
  | (k', v) :: rest => if String.eqb k k' then Some v else log_get k rest
  end.

(** [big.Int.Cmp]: -1, 0 or 1. *)
Definition big_Cmp (x y : Z) : Z :=
  match x ?= y with
  | Lt => -1
  | Eq => 0
  | Gt => 1
  end.

(** The constructor.  Its struct literal (lines 47-53) has entries for
    [log], [ctx], [timeout], [blobConfig] and [calldataConfig] and none
    for [gasPricer]: the argument is dropped and the field keeps its zero
    value, nil. *)
Definition NewDynamicEthChannelConfig (reqTimeout : Z) (pricer : option GasPricer)
    (blobCfg calldataCfg : ChannelConfig) : DynamicEthChannelConfig :=
  {| timeout := reqTimeout;
     gasPricer := None;
     blobConfig := blobCfg;
     calldataConfig := calldataCfg;
     (* start with blob config *)
     latestConfig := addr_blobConfig |}.

Section Provider.
Variable P : ProtocolParams.

Definition randomByteCalldataGas : Z := TxDataNonZeroGasEIP2028 P.

(** The local variables of the method [ChannelConfig], one definition per
    assignment of the source. *)

(* calldataBytes := dec.calldataConfig.MaxFrameSize + 1 *)
Definition calldataBytes (dec : DynamicEthChannelConfig) : Z :=
  uint64 (MaxFrameSize (calldataConfig dec) + 1).

(* calldataGas := big.NewInt(int64(calldataBytes*randomByteCalldataGas + params.TxGas)) *)
Definition calldataGas (dec : DynamicEthChannelConfig) : Z :=
  int64 (uint64 (uint64 (calldataBytes dec * randomByteCalldataGas) + TxGas P)).

(* calldataPrice := new(big.Int).Add(baseFee, tipCap) *)
Definition calldataPrice (q : GasPriceCaps) : Z := baseFee q + tipCap q.

(* calldataCost := new(big.Int).Mul(calldataGas, calldataPrice) *)
Definition calldataCost (dec : DynamicEthChannelConfig) (q : GasPriceCaps) : Z :=
  calldataGas dec * calldataPrice q.

(* blobGas := big.NewInt(eth.BlobSize * int64(dec.blobConfig.TargetNumFrames)) *)
Definition blobGas (dec : DynamicEthChannelConfig) : Z :=
  int64 (BlobSize P * int64 (TargetNumFrames (blobConfig dec))).

(* blobCalldataCost := new(big.Int).Mul(big.NewInt(int64(params.TxGas)), calldataPrice) *)
Definition blobCalldataCost (q : GasPriceCaps) : Z :=
  int64 (TxGas P) * calldataPrice q.

(* blobCost := new(big.Int).Mul(blobGas, blobBaseFee)
   blobCost = blobCost.Add(blobCost, blobCalldataCost) *)
Definition blobCost (dec : DynamicEthChannelConfig) (q : GasPriceCaps) : Z :=
  blobGas dec * blobBaseFee q + blobCalldataCost q.

(* blobDataBytes := big.NewInt(eth.MaxBlobDataSize * int64(dec.blobConfig.TargetNumFrames)) *)
Definition blobDataBytes (dec : DynamicEthChannelConfig) : Z :=
  int64 (MaxBlobDataSize P * int64 (TargetNumFrames (blobConfig dec))).

(* the key-value pairs of [lgr] *)
Definition decision_ctx (dec : DynamicEthChannelConfig) (q : GasPriceCaps)
    : list (string * LogValue) :=
  [ ("base_fee"%string, LogInt (baseFee q));
    ("blob_base_fee"%string, LogInt (blobBaseFee q));
    ("tip_cap"%string, LogInt (tipCap q));
    ("calldata_bytes"%string, LogInt (calldataBytes dec));
    ("calldata_cost"%string, LogInt (calldataCost dec q));
    ("blob_data_bytes"%string, LogInt (blobDataBytes dec));
    ("blob_cost"%string, LogInt (blobCost dec q)) ].

(** The method [(dec *DynamicEthChannelConfig) ChannelConfig()] from the
    oracle's answer on (lines 63-99), named after its receiver because the
    struct type [ChannelConfig] has the name already: the provider after
    the call, the configuration returned, and the line logged.  [reply] is
    what the fee oracle answered within the timeout. *)
Definition dec_ChannelConfig (dec : DynamicEthChannelConfig) (reply : PricerReply)
    : DynamicEthChannelConfig * ChannelConfig * LogRecord :=
  match reply with
  | inr err =>
      (dec, deref dec (latestConfig dec),
       mkLog LvlWarn "Error querying gas prices, returning latest config"
             [("err"%string, LogErr err)])
  | inl q =>
      let lgr := decision_ctx dec q in
      (* Now we compare the prices normalized to the number of bytes that
         can be submitted for that price. *)
      if big_Cmp (blobCost dec q * int64 (calldataBytes dec))
                 (calldataCost dec q * blobDataBytes dec) =? 1
      then (dec, calldataConfig dec, mkLog LvlInfo "Using calldata channel config" lgr)
      else (dec, blobConfig dec, mkLog LvlInfo "Using blob channel config" lgr)
  end.

Definition provider_after (out : DynamicEthChannelConfig * ChannelConfig * LogRecord)
    : DynamicEthChannelConfig := fst (fst out).
Definition returned (out : DynamicEthChannelConfig * ChannelConfig * LogRecord)
    : ChannelConfig := snd (fst out).
Definition logged (out : DynamicEthChannelConfig * ChannelConfig * LogRecord)
    : LogRecord := snd out.

(** What a call of the method comes to: it returns, or it panics. *)
Inductive Outcome :=
| Panics
| Returns (out : DynamicEthChannelConfig * ChannelConfig * LogRecord).

(** The whole method (lines 59-100).  Line 62 calls
    [SuggestGasPriceCaps] through [dec.gasPricer], which panics when the
    interface value is nil; [n] is the number of requests the oracle has
    answered before this one. *)
Definition DynamicEthChannelConfig_ChannelConfig (dec : DynamicEthChannelConfig)
    (n : nat) : Outcome :=
  match gasPricer dec with
  | None => Panics
  | Some pricer => Returns (dec_ChannelConfig dec (pricer n))
  end.

(** [k] calls in a row, the first being the oracle's request number [n];
    a panic ends the run. *)
Fixpoint ChannelConfig_run (dec : DynamicEthChannelConfig) (n k : nat) : list Outcome :=
  match k with
  | O => []
  | S k' =>
      match DynamicEthChannelConfig_ChannelConfig dec n with
      | Panics => [Panics]
      | Returns out => Returns out :: ChannelConfig_run (provider_after out) (S n) k'
      end
  end.

End Provider.

(** The two cost estimates as the specification words them, over the
    unbounded integers: gas = bytes * perNonZeroByteGas + baseTxGas and
    cost = gas * (tipCap + baseFee) for calldata; gas = blobSlotSize *
    targetFrameCount and cost = gas * blobBaseFee plus baseTxGas * (tipCap +
    baseFee) for blobs. *)
Definition spec_calldataCost (P : ProtocolParams) (dec : DynamicEthChannelConfig)
    (q : GasPriceCaps) : Z :=
  ((MaxFrameSize (calldataConfig dec) + 1) * TxDataNonZeroGasEIP2028 P + TxGas P)
  * (tipCap q + baseFee q).

Definition spec_blobCost (P : ProtocolParams) (dec : DynamicEthChannelConfig)
    (q : GasPriceCaps) : Z :=
  (BlobSize P * TargetNumFrames (blobConfig dec)) * blobBaseFee q
  + TxGas P * (tipCap q + baseFee q).

(** The configurations of the specification's concrete scenario. *)
Definition scenario_blobConfig : ChannelConfig :=
  {| MaxFrameSize := 130043; TargetNumFrames := 1; MultiFrameTxs := true |}.

Definition scenario_calldataConfig : ChannelConfig :=
  {| MaxFrameSize := 120000; TargetNumFrames := 1; MultiFrameTxs := false |}.

(** An oracle whose first answer is the quote tipCap = 1, baseFee = 1,
    blobBaseFee = 1,000,000 and whose later requests all fail. *)
Definition scenario_pricer : GasPricer :=
  fun n =>
    match n with
    | O => inl (mkCaps 1 1 1000000)
    | S _ => inr (lib_error "context deadline exceeded")
    end.

(** A provider with the fields the constructor sets and, in the field the
    constructor leaves nil, an oracle. *)
Definition provider_with (calldataCfg : ChannelConfig) : DynamicEthChannelConfig :=
  {| timeout := 10;
     gasPricer := Some scenario_pricer;
     blobConfig := scenario_blobConfig;
     calldataConfig := calldataCfg;
     latestConfig := addr_blobConfig |}.

Definition scenario_provider : DynamicEthChannelConfig :=
  provider_with scenario_calldataConfig.

(** A provider whose calldata frame size is 2^60 bytes. *)
Definition oversized_provider : DynamicEthChannelConfig :=
  provider_with {| MaxFrameSize := 2 ^ 60; TargetNumFrames := 1; MultiFrameTxs := false |}.

(** A provider whose calldata frame size is 2^63 bytes. *)
Definition huge_provider : DynamicEthChannelConfig :=
  provider_with {| MaxFrameSize := 2 ^ 63; TargetNumFrames := 1; MultiFrameTxs := false |}.

(** *** Properties of the provider *)
Section ProviderFacts.
Variable P : ProtocolParams.

Lemma big_Cmp_gt (x y : Z) : (big_Cmp x y =? 1) = (x >? y).
Proof.
  unfold big_Cmp, Z.gtb. destruct (x ?= y); reflexivity.
Qed.

(** The comparison in the form the proofs below use. *)
Lemma dec_ChannelConfig_quote (dec : DynamicEthChannelConfig) (q : GasPriceCaps) :
  dec_ChannelConfig P dec (inl q) =
  if blobCost P dec q * int64 (calldataBytes dec) >? calldataCost P dec q * blobDataBytes P dec
  then (dec, calldataConfig dec,
        mkLog LvlInfo "Using calldata channel config" (decision_ctx P dec q))
  else (dec, blobConfig dec,
        mkLog LvlInfo "Using blob channel config" (decision_ctx P dec q)).
Proof.
  unfold dec_ChannelConfig. rewrite big_Cmp_gt. reflexivity.
Qed.

(** No path of the method assigns to a field of the provider. *)
Lemma dec_ChannelConfig_provider (dec : DynamicEthChannelConfig) (reply : PricerReply) :
  provider_after (dec_ChannelConfig P dec reply) = dec.
Proof.
  destruct reply as [q | err]; [rewrite dec_ChannelConfig_quote | reflexivity].
  destruct (_ >? _); reflexivity.
Qed.

(** For sizes that fit, the two byte budgets of the comparison are the
    assumed calldata payload and the usable capacity of the target
    blobs. *)
Lemma byte_budgets_within_int64 (dec : DynamicEthChannelConfig) :
  0 <= MaxFrameSize (calldataConfig dec) < 2 ^ 63 - 1 ->
  - 2 ^ 63 <= TargetNumFrames (blobConfig dec) < 2 ^ 63 ->
  - 2 ^ 63 <= MaxBlobDataSize P * TargetNumFrames (blobConfig dec) < 2 ^ 63 ->
  int64 (calldataBytes dec) = MaxFrameSize (calldataConfig dec) + 1
  /\ blobDataBytes P dec = MaxBlobDataSize P * TargetNumFrames (blobConfig dec).
Proof.
  intros Hm Hn Hb. unfold calldataBytes, blobDataBytes.
  rewrite uint64_id by lia. rewrite int64_id by lia.
  rewrite (int64_id (TargetNumFrames (blobConfig dec))) by lia.
  rewrite int64_id by lia. auto.
Qed.

(** The comparison of lines 93-94 on the operands the method computes:
    calldata exactly when the first product is the greater, blob
    otherwise, equality included. *)
Lemma decision_on_computed_operands (dec : DynamicEthChannelConfig) (q : GasPriceCaps) :
  let out := dec_ChannelConfig P dec (inl q) in
  let lhs := blobCost P dec q * int64 (calldataBytes dec) in
  let rhs := calldataCost P dec q * blobDataBytes P dec in
  (lhs > rhs ->
     returned out = calldataConfig dec
     /\ log_msg (logged out) = "Using calldata channel config"%string)
  /\ (lhs <= rhs ->
     returned out = blobConfig dec
     /\ log_msg (logged out) = "Using blob channel config"%string)
  /\ (calldataConfig dec <> blobConfig dec ->
     (returned out = calldataConfig dec <-> lhs > rhs)).
Proof.
  cbv zeta. rewrite dec_ChannelConfig_quote.
  destruct (Z.gtb_spec (blobCost P dec q * int64 (calldataBytes dec))
                       (calldataCost P dec q * blobDataBytes P dec)) as [Hgt | Hle];
    cbn [returned logged fst snd log_msg].
  - repeat split; intros; try lia; auto.
  - repeat split; intros; try lia; auto.
    exfalso. match goal with H : _ <> _ |- _ => apply H end. congruence.
Qed.

(** C2, as amended.  When the per-byte gas is positive, the configured
    sizes are in the range of their Go types and neither gas amount leaves
    the signed 64-bit range, the
    two cost estimates, which are also the ones logged, are the
    specification's formulas over the unbounded integers. *)
Theorem C2_costs_within_int64 (dec : DynamicEthChannelConfig) (q : GasPriceCaps) :
  0 < TxDataNonZeroGasEIP2028 P ->
  0 <= TxGas P ->
  0 <= MaxFrameSize (calldataConfig dec) ->
  (MaxFrameSize (calldataConfig dec) + 1) * TxDataNonZeroGasEIP2028 P + TxGas P < 2 ^ 63 ->
  - 2 ^ 63 <= TargetNumFrames (blobConfig dec) < 2 ^ 63 ->
  - 2 ^ 63 <= BlobSize P * TargetNumFrames (blobConfig dec) < 2 ^ 63 ->
  let ctx := log_ctx (logged (dec_ChannelConfig P dec (inl q))) in
  calldataCost P dec q = spec_calldataCost P dec q
  /\ blobCost P dec q = spec_blobCost P dec q
  /\ log_get "calldata_cost" ctx = Some (LogInt (spec_calldataCost P dec q))
  /\ log_get "blob_cost" ctx = Some (LogInt (spec_blobCost P dec q)).
Proof.
  intros Hg Ht Hm Hgas Hn Hblob ctx.
  assert (Hcc : calldataCost P dec q = spec_calldataCost P dec q).
  { unfold calldataCost, spec_calldataCost, calldataGas, calldataPrice,
      calldataBytes, randomByteCalldataGas.
    assert (Hmul : 0 <= (MaxFrameSize (calldataConfig dec) + 1) * TxDataNonZeroGasEIP2028 P)
      by (apply Z.mul_nonneg_nonneg; lia).
    assert (Hb : MaxFrameSize (calldataConfig dec) + 1 < 2 ^ 64).
    { assert (MaxFrameSize (calldataConfig dec) + 1
              <= (MaxFrameSize (calldataConfig dec) + 1) * TxDataNonZeroGasEIP2028 P)
        by nia.
      lia. }
    rewrite (uint64_id (MaxFrameSize (calldataConfig dec) + 1)) by lia.
    rewrite (uint64_id (_ * _)) by lia.
    rewrite uint64_id by lia.
    rewrite int64_id by lia. ring. }
  assert (Hbc : blobCost P dec q = spec_blobCost P dec q).
  { unfold blobCost, spec_blobCost, blobGas, blobCalldataCost, calldataPrice.
    assert (Hmul : 0 <= (MaxFrameSize (calldataConfig dec) + 1) * TxDataNonZeroGasEIP2028 P)
      by (apply Z.mul_nonneg_nonneg; lia).
    rewrite (int64_id (TargetNumFrames (blobConfig dec))) by lia.
    rewrite (int64_id (BlobSize P * _)) by lia.
    rewrite (int64_id (TxGas P)) by lia. ring. }
  subst ctx. rewrite dec_ChannelConfig_quote.
  repeat split; auto; destruct (_ >? _); cbn; congruence.
Qed.

(** A failed fetch returns what [latestConfig] points to. *)
Lemma failed_fetch_returns_latest (dec : DynamicEthChannelConfig) (err : error) :
  returned (dec_ChannelConfig P dec (inr err)) = deref dec (latestConfig dec).
Proof. reflexivity. Qed.

End ProviderFacts.

Lemma C2_costs_within_int64_witness :
  let q := mkCaps 1 1 1 in
  calldataCost mainnet scenario_provider q = spec_calldataCost mainnet scenario_provider q
  /\ blobCost mainnet scenario_provider q = spec_blobCost mainnet scenario_provider q.
Proof.
  cbv zeta.
  pose proof (C2_costs_within_int64 mainnet scenario_provider (mkCaps 1 1 1)) as H.
  cbn in H.
  destruct H as (H1 & H2 & _); try lia.
  split; [exact H1 | exact H2].
Defined.

(** C2, the claim as stated fails: the calldata gas is computed in
    [uint64] and converted to [int64] before it becomes a [big.Int].  With
    a calldata frame size of 2^60 bytes the product by 16 wraps around, so
    the estimate is 42032 where the formula over the unbounded integers
    gives 2^65 + 42032. *)
Lemma C2_calldata_gas_wraps :
  let q := mkCaps 1 1 1 in
  let out := dec_ChannelConfig mainnet oversized_provider (inl q) in
  calldataCost mainnet oversized_provider q = 42032
  /\ log_get "calldata_cost" (log_ctx (logged out)) = Some (LogInt 42032)
  /\ spec_calldataCost mainnet oversized_provider q = 2 ^ 65 + 42032
  /\ calldataCost mainnet oversized_provider q
     <> spec_calldataCost mainnet oversized_provider q.
Proof.
  cbv zeta. repeat split; try (vm_compute; reflexivity).
  vm_compute. discriminate.
Qed.

(** C9.  With a calldata frame size of 120,000 bytes and one target blob
    frame, the quote tipCap = 1, baseFee = 1, blobBaseFee = 1 selects the
    blob configuration, and the same quote with blobBaseFee = 1,000,000
    selects the calldata configuration (under the protocol constants
    [mainnet]). *)
Theorem C9_scenario_flips (dec : DynamicEthChannelConfig) :
  MaxFrameSize (calldataConfig dec) = 120000 ->
  TargetNumFrames (blobConfig dec) = 1 ->
  let cheap := dec_ChannelConfig mainnet dec (inl (mkCaps 1 1 1)) in
  let dear := dec_ChannelConfig mainnet dec (inl (mkCaps 1 1 1000000)) in
  (returned cheap = blobConfig dec
   /\ log_msg (logged cheap) = "Using blob channel config"%string)
  /\ (returned dear = calldataConfig dec
   /\ log_msg (logged dear) = "Using calldata channel config"%string).
Proof.
  intros Hm Hn. cbv zeta. rewrite !dec_ChannelConfig_quote.
  unfold blobCost, calldataCost, blobDataBytes, blobGas, blobCalldataCost,
    calldataGas, calldataBytes, calldataPrice, randomByteCalldataGas.
  rewrite Hm, Hn.
  replace (_ >? _) with false by (vm_compute; reflexivity).
  replace (_ >? _) with true by (vm_compute; reflexivity).
  repeat split.
Qed.

Lemma C9_scenario_flips_witness :
  returned (dec_ChannelConfig mainnet scenario_provider (inl (mkCaps 1 1 1)))
    = scenario_blobConfig
  /\ returned (dec_ChannelConfig mainnet scenario_provider (inl (mkCaps 1 1 1000000)))
    = scenario_calldataConfig.
Proof.
  pose proof (C9_scenario_flips scenario_provider eq_refl eq_refl) as H.
  cbv zeta in H. destruct H as [[H1 _] [H2 _]].
  split; [exact H1 | exact H2].
Defined.

(** The numbers behind C9: the two cross products for each quote. *)
Example scenario_cross_products :
  let d := scenario_provider in
  let cheap := mkCaps 1 1 1 in
  let dear := mkCaps 1 1 1000000 in
  blobCost mainnet d cheap * int64 (calldataBytes d) = 173072 * 120001
  /\ calldataCost mainnet d cheap * blobDataBytes mainnet d = 3882032 * 130044
  /\ blobCost mainnet d dear * int64 (calldataBytes d) = 131072042000 * 120001
  /\ calldataCost mainnet d dear * blobDataBytes mainnet d = 3882032 * 130044.
Proof. cbv zeta. repeat split; vm_compute; reflexivity. Qed.

(** C3, where the code departs from the claim.  The provider holds an
    oracle whose first answer is a quote and whose second request fails.
    The first call returns the calldata configuration and leaves the
    provider as it was, [latestConfig] still holding the address of the
    blob configuration; the second call returns the blob configuration and
    not the configuration the first call chose. *)
Theorem C3_fallback_forgets_last_choice :
  exists out1 out2,
    ChannelConfig_run mainnet scenario_provider 0%nat 2%nat = [Returns out1; Returns out2]
    /\ scenario_pricer 0%nat = inl (mkCaps 1 1 1000000)
    /\ scenario_pricer 1%nat = inr (lib_error "context deadline exceeded")
    /\ returned out1 = scenario_calldataConfig
    /\ provider_after out1 = scenario_provider
    /\ latestConfig (provider_after out1) = addr_blobConfig
    /\ returned out2 = scenario_blobConfig
    /\ returned out2 <> returned out1.
Proof.
  eexists. eexists. split; [vm_compute; reflexivity |].
  repeat split; try (vm_compute; reflexivity).
  vm_compute. discriminate.
Qed.

(** *** Further properties of the provider *)

Definition failed_reply (reply : PricerReply) : bool :=
  match reply with
  | inr _ => true
  | inl _ => false
  end.

(** The quote [q] with every fee multiplied by [k]. *)
Definition scale_caps (k : Z) (q : GasPriceCaps) : GasPriceCaps :=
  {| tipCap := k * tipCap q; baseFee := k * baseFee q; blobBaseFee := k * blobBaseFee q |}.

(** The quote [q] with another blob base fee. *)
Definition with_blobBaseFee (q : GasPriceCaps) (b : Z) : GasPriceCaps :=
  {| tipCap := tipCap q; baseFee := baseFee q; blobBaseFee := b |}.

Section ProviderMore.
Variable P : ProtocolParams.

(** The decision read off the log line. *)
Lemma calldata_logged_iff (dec : DynamicEthChannelConfig) (q : GasPriceCaps) :
  log_msg (logged (dec_ChannelConfig P dec (inl q))) = "Using calldata channel config"%string
  <-> blobCost P dec q * int64 (calldataBytes dec) > calldataCost P dec q * blobDataBytes P dec.
Proof.
  rewrite dec_ChannelConfig_quote.
  destruct (Z.gtb_spec (blobCost P dec q * int64 (calldataBytes dec))
                       (calldataCost P dec q * blobDataBytes P dec)) as [Hgt | Hle];
    cbn; split; intros H; try lia; try reflexivity; discriminate.
Qed.

(** The two gas amounts when nothing wraps around. *)
Lemma gas_within_int64 (dec : DynamicEthChannelConfig) :
  0 < TxDataNonZeroGasEIP2028 P ->
  0 <= TxGas P ->
  0 <= MaxFrameSize (calldataConfig dec) ->
  (MaxFrameSize (calldataConfig dec) + 1) * TxDataNonZeroGasEIP2028 P + TxGas P < 2 ^ 63 ->
  - 2 ^ 63 <= TargetNumFrames (blobConfig dec) < 2 ^ 63 ->
  - 2 ^ 63 <= BlobSize P * TargetNumFrames (blobConfig dec) < 2 ^ 63 ->
  calldataBytes dec = MaxFrameSize (calldataConfig dec) + 1
  /\ calldataGas P dec
     = (MaxFrameSize (calldataConfig dec) + 1) * TxDataNonZeroGasEIP2028 P + TxGas P
  /\ blobGas P dec = BlobSize P * TargetNumFrames (blobConfig dec)
  /\ int64 (TxGas P) = TxGas P.
Proof.
  intros Hg Ht Hm Hgas Hn Hblob.
  assert (Hle : MaxFrameSize (calldataConfig dec) + 1
                <= (MaxFrameSize (calldataConfig dec) + 1) * TxDataNonZeroGasEIP2028 P)
    by nia.
  unfold calldataGas, blobGas, calldataBytes, randomByteCalldataGas.
  rewrite (uint64_id (MaxFrameSize (calldataConfig dec) + 1)) by lia.
  rewrite (uint64_id (_ * _)) by lia.
  rewrite uint64_id by lia.
  rewrite (int64_id (_ + TxGas P)) by lia.
  rewrite (int64_id (TargetNumFrames (blobConfig dec))) by lia.
  rewrite (int64_id (BlobSize P * _)) by lia.
  rewrite (int64_id (TxGas P)) by lia.
  auto.
Qed.

(** X1.  Whatever the oracle replies, the method returns one of the two
    configurations the provider was built with, and leaves the provider
    (its timeout, its two configurations and [latestConfig]) as it was. *)
Theorem X1_returns_a_configured_config (dec : DynamicEthChannelConfig)
    (reply : PricerReply) :
  provider_after (dec_ChannelConfig P dec reply) = dec
  /\ (returned (dec_ChannelConfig P dec reply) = blobConfig dec
      \/ returned (dec_ChannelConfig P dec reply) = calldataConfig dec).
Proof.
  split; [apply dec_ChannelConfig_provider |].
  destruct reply as [q | err].
  - rewrite dec_ChannelConfig_quote. destruct (_ >? _); cbn; auto.
  - cbn. destruct (latestConfig dec); cbn; auto.
Qed.

(** A provider that holds an oracle never panics and never changes: the
    i-th call of a run is the method's answer to the oracle's i-th
    reply. *)
Lemma ChannelConfig_run_nth (dec : DynamicEthChannelConfig) (pricer : GasPricer) :
  gasPricer dec = Some pricer ->
  forall (k n i : nat),
    (i < k)%nat ->
    nth_error (ChannelConfig_run P dec n k) i
    = Some (Returns (dec_ChannelConfig P dec (pricer (n + i)%nat))).
Proof.
  intros Hp. induction k as [| k IH]; intros n i Hi; [lia |].
  cbn [ChannelConfig_run]. unfold DynamicEthChannelConfig_ChannelConfig.
  rewrite Hp. rewrite dec_ChannelConfig_provider.
  destruct i as [| i]; cbn [nth_error].
  - rewrite Nat.add_0_r. reflexivity.
  - rewrite IH by lia. rewrite Nat.add_succ_r. reflexivity.
Qed.

(** X2.  Along any run of calls on a provider that holds an oracle and
    whose [latestConfig] is the address the constructor stores, every call
    whose fetch fails returns the blob configuration and leaves the
    provider unchanged, whatever the calls before it returned; consecutive
    failures therefore return the same configuration. *)
Theorem X2_failed_fetches_return_blob (dec : DynamicEthChannelConfig)
    (pricer : GasPricer) (n k i : nat) :
  gasPricer dec = Some pricer ->
  latestConfig dec = addr_blobConfig ->
  (i < k)%nat ->
  failed_reply (pricer (n + i)%nat) = true ->
  exists out,
    nth_error (ChannelConfig_run P dec n k) i = Some (Returns out)
    /\ returned out = blobConfig dec
    /\ provider_after out = dec.
Proof.
  intros Hp Hl Hi Hf.
  exists (dec_ChannelConfig P dec (pricer (n + i)%nat)).
  split; [apply ChannelConfig_run_nth; assumption |].
  split; [| apply dec_ChannelConfig_provider].
  destruct (pricer (n + i)%nat) as [q | err]; cbn [failed_reply] in Hf; [discriminate |].
  cbn. rewrite Hl. reflexivity.
Qed.

(** X14.  The constructor drops its [gasPricer] argument, so on a provider
    fresh from it every call of the method panics at the request to the
    oracle, whatever oracle, timeout and configurations were passed in. *)
Theorem X14_constructed_provider_panics (reqTimeout : Z) (pricer : option GasPricer)
    (blobCfg calldataCfg : ChannelConfig) (n k : nat) :
  gasPricer (NewDynamicEthChannelConfig reqTimeout pricer blobCfg calldataCfg) = None
  /\ DynamicEthChannelConfig_ChannelConfig P
       (NewDynamicEthChannelConfig reqTimeout pricer blobCfg calldataCfg) n = Panics
  /\ ChannelConfig_run P
       (NewDynamicEthChannelConfig reqTimeout pricer blobCfg calldataCfg) n (S k) = [Panics].
Proof. repeat split. Qed.

(** C1, as amended.  For every fee quote that was fetched, when the
    per-byte gas is positive and the gas amounts and byte budgets fit a
    signed 64-bit integer, the method returns the calldata configuration
    (and logs that decision) exactly when blobCost times the calldata byte
    budget, the frame size plus one, is strictly greater than calldataCost
    times the blob byte budget, the usable capacity of the target blobs;
    otherwise, equality of the two products included, it returns the blob
    configuration.  The costs are the estimates over the unbounded
    integers. *)
Theorem C1_cross_product_rule_within_int64 (dec : DynamicEthChannelConfig)
    (q : GasPriceCaps) :
  0 < TxDataNonZeroGasEIP2028 P ->
  0 <= TxGas P ->
  0 <= MaxFrameSize (calldataConfig dec) ->
  (MaxFrameSize (calldataConfig dec) + 1) * TxDataNonZeroGasEIP2028 P + TxGas P < 2 ^ 63 ->
  - 2 ^ 63 <= TargetNumFrames (blobConfig dec) < 2 ^ 63 ->
  - 2 ^ 63 <= BlobSize P * TargetNumFrames (blobConfig dec) < 2 ^ 63 ->
  - 2 ^ 63 <= MaxBlobDataSize P * TargetNumFrames (blobConfig dec) < 2 ^ 63 ->
  let out := dec_ChannelConfig P dec (inl q) in
  let lhs := spec_blobCost P dec q * (MaxFrameSize (calldataConfig dec) + 1) in
  let rhs := spec_calldataCost P dec q
             * (MaxBlobDataSize P * TargetNumFrames (blobConfig dec)) in
  (lhs > rhs ->
     returned out = calldataConfig dec
     /\ log_msg (logged out) = "Using calldata channel config"%string)
  /\ (lhs <= rhs ->
     returned out = blobConfig dec
     /\ log_msg (logged out) = "Using blob channel config"%string)
  /\ (calldataConfig dec <> blobConfig dec ->
     (returned out = calldataConfig dec <-> lhs > rhs)).
Proof.
  intros Hg Ht Hm Hgas Hn Hblob Hdata out lhs rhs.
  destruct (gas_within_int64 dec Hg Ht Hm Hgas Hn Hblob) as (Hcb & Hcg & Hbg & Htx).
  assert (Hle : MaxFrameSize (calldataConfig dec) + 1
                <= (MaxFrameSize (calldataConfig dec) + 1) * TxDataNonZeroGasEIP2028 P)
    by nia.
  assert (Hl : blobCost P dec q * int64 (calldataBytes dec) = lhs).
  { subst lhs. unfold blobCost, blobCalldataCost, calldataPrice, spec_blobCost.
    rewrite Hcb, Hbg, Htx. rewrite int64_id by lia.
    rewrite (Z.add_comm (baseFee q) (tipCap q)). reflexivity. }
  assert (Hr : calldataCost P dec q * blobDataBytes P dec = rhs).
  { subst rhs. unfold calldataCost, calldataPrice, blobDataBytes, spec_calldataCost.
    rewrite Hcg. rewrite (int64_id (TargetNumFrames (blobConfig dec))) by lia.
    rewrite int64_id by lia.
    rewrite (Z.add_comm (baseFee q) (tipCap q)). reflexivity. }
  subst out. rewrite dec_ChannelConfig_quote. rewrite Hl, Hr.
  destruct (Z.gtb_spec lhs rhs) as [Hgt | Hnot]; cbn [returned logged fst snd log_msg].
  - repeat split; intros; try lia; auto.
  - repeat split; intros; try lia; auto.
    exfalso. match goal with H : _ <> _ |- _ => apply H end. congruence.
Qed.

(** X3.  The choice is monotone in the blob base fee: when the blob gas
    and the calldata byte budget have the same sign (both are positive for
    any sensible configuration) and a quote selects calldata, the same
    quote with a higher blob base fee selects calldata too. *)
Theorem X3_blob_fee_monotone (dec : DynamicEthChannelConfig) (q : GasPriceCaps) (b : Z) :
  0 <= blobGas P dec * int64 (calldataBytes dec) ->
  blobBaseFee q <= b ->
  log_msg (logged (dec_ChannelConfig P dec (inl q))) = "Using calldata channel config"%string ->
  log_msg (logged (dec_ChannelConfig P dec (inl (with_blobBaseFee q b))))
    = "Using calldata channel config"%string
  /\ returned (dec_ChannelConfig P dec (inl (with_blobBaseFee q b))) = calldataConfig dec.
Proof.
  intros Hsign Hb Hq.
  apply calldata_logged_iff in Hq.
  assert (Hq' : blobCost P dec (with_blobBaseFee q b) * int64 (calldataBytes dec)
                > calldataCost P dec (with_blobBaseFee q b) * blobDataBytes P dec).
  { unfold blobCost, calldataCost, blobCalldataCost, calldataPrice in *. cbn.
    set (g := blobGas P dec) in *. set (c := int64 (calldataBytes dec)) in *.
    assert (g * c * blobBaseFee q <= g * c * b) by (apply Z.mul_le_mono_nonneg_l; lia).
    nia. }
  split; [apply calldata_logged_iff; exact Hq' |].
  rewrite dec_ChannelConfig_quote.
  destruct (Z.gtb_spec (blobCost P dec (with_blobBaseFee q b) * int64 (calldataBytes dec))
              (calldataCost P dec (with_blobBaseFee q b) * blobDataBytes P dec));
    [reflexivity | lia].
Qed.

Lemma scaled_costs (dec : DynamicEthChannelConfig) (q : GasPriceCaps) (k : Z) :
  blobCost P dec (scale_caps k q) = k * blobCost P dec q
  /\ calldataCost P dec (scale_caps k q) = k * calldataCost P dec q.
Proof.
  unfold blobCost, calldataCost, blobCalldataCost, calldataPrice, scale_caps. cbn.
  split; ring.
Qed.

(** X4.  The choice depends on the ratios of the fees only: multiplying
    the three fees of a quote by the same positive factor changes neither
    the configuration returned nor the decision logged. *)
Theorem X4_scale_invariant (dec : DynamicEthChannelConfig) (q : GasPriceCaps) (k : Z) :
  0 < k ->
  returned (dec_ChannelConfig P dec (inl (scale_caps k q)))
    = returned (dec_ChannelConfig P dec (inl q))
  /\ log_msg (logged (dec_ChannelConfig P dec (inl (scale_caps k q))))
     = log_msg (logged (dec_ChannelConfig P dec (inl q))).
Proof.
  intros Hk. rewrite !dec_ChannelConfig_quote.
  destruct (scaled_costs dec q k) as [Hb Hc]. rewrite Hb, Hc.
  set (x := blobCost P dec q * int64 (calldataBytes dec)).
  set (y := calldataCost P dec q * blobDataBytes P dec).
  replace (k * blobCost P dec q * int64 (calldataBytes dec)) with (k * x)
    by (subst x; ring).
  replace (k * calldataCost P dec q * blobDataBytes P dec) with (k * y)
    by (subst y; ring).
  destruct (Z.gtb_spec (k * x) (k * y)), (Z.gtb_spec x y); cbn; auto; nia.
Qed.

(** X5.  End to end, for sizes that fit 64 bits: the method returns the
    calldata configuration exactly when, over the unbounded integers, the
    blob cost times the calldata payload (frame size plus one) exceeds the
    calldata cost times the usable capacity of the target blobs, and the
    blob configuration otherwise. *)
Theorem X5_rule_over_exact_costs (dec : DynamicEthChannelConfig) (q : GasPriceCaps) :
  0 < TxDataNonZeroGasEIP2028 P ->
  0 <= TxGas P ->
  0 <= MaxFrameSize (calldataConfig dec) ->
  (MaxFrameSize (calldataConfig dec) + 1) * TxDataNonZeroGasEIP2028 P + TxGas P < 2 ^ 63 ->
  - 2 ^ 63 <= TargetNumFrames (blobConfig dec) < 2 ^ 63 ->
  - 2 ^ 63 <= BlobSize P * TargetNumFrames (blobConfig dec) < 2 ^ 63 ->
  - 2 ^ 63 <= MaxBlobDataSize P * TargetNumFrames (blobConfig dec) < 2 ^ 63 ->
  returned (dec_ChannelConfig P dec (inl q))
  = if spec_blobCost P dec q * (MaxFrameSize (calldataConfig dec) + 1)
       >? spec_calldataCost P dec q
          * (MaxBlobDataSize P * TargetNumFrames (blobConfig dec))
    then calldataConfig dec
    else blobConfig dec.
Proof.
  intros Hg Ht Hm Hgas Hn Hblob Hdata.
  destruct (gas_within_int64 dec Hg Ht Hm Hgas Hn Hblob) as (Hcb & Hcg & Hbg & Htx).
  assert (Hle : MaxFrameSize (calldataConfig dec) + 1
                <= (MaxFrameSize (calldataConfig dec) + 1) * TxDataNonZeroGasEIP2028 P)
    by nia.
  rewrite dec_ChannelConfig_quote.
  unfold blobCost, calldataCost, blobCalldataCost, calldataPrice, blobDataBytes,
    spec_blobCost, spec_calldataCost.
  rewrite Hcb, Hcg, Hbg, Htx.
  rewrite (int64_id (MaxFrameSize (calldataConfig dec) + 1)) by lia.
  rewrite (int64_id (TargetNumFrames (blobConfig dec))) by lia.
  rewrite (int64_id (MaxBlobDataSize P * _)) by lia.
  rewrite (Z.add_comm (baseFee q) (tipCap q)).
  destruct (_ >? _); reflexivity.
Qed.

End ProviderMore.

Lemma C1_cross_product_rule_within_int64_witness :
  returned (dec_ChannelConfig mainnet scenario_provider (inl (mkCaps 1 1 1)))
    = scenario_blobConfig
  /\ returned (dec_ChannelConfig mainnet scenario_provider (inl (mkCaps 1 1 1000000)))
    = scenario_calldataConfig.
Proof.
  pose proof (C1_cross_product_rule_within_int64 mainnet scenario_provider (mkCaps 1 1 1))
    as H1.
  pose proof (C1_cross_product_rule_within_int64 mainnet scenario_provider
                (mkCaps 1 1 1000000)) as H2.
  cbn in H1, H2.
  destruct H1 as (_ & H1 & _); try lia.
  destruct H2 as (H2 & _); try lia.
  split; [apply H1; lia | apply H2; lia].
Defined.

(** C1, the claim as stated fails: the comparison is made on 64-bit
    values.  (1) With a calldata frame size of 2^63 bytes and the quote
    1, 1, 1, the logged blob cost times the logged calldata bytes exceeds
    the logged calldata cost times the logged blob data bytes, and the
    method returns the blob configuration: the byte budget it multiplies
    by is the [int64] conversion of 2^63 + 1, a negative number.  (2) With
    a frame size of 2^60 bytes the estimates over the unbounded integers
    give a product for blob that is not the greater, and the method
    returns the calldata configuration, its calldata gas having wrapped
    around. *)
Lemma C1_wrapped_operands_decide :
  let q := mkCaps 1 1 1 in
  let out := dec_ChannelConfig mainnet huge_provider (inl q) in
  let out' := dec_ChannelConfig mainnet oversized_provider (inl q) in
  (log_get "blob_cost" (log_ctx (logged out)) = Some (LogInt 173072)
   /\ log_get "calldata_bytes" (log_ctx (logged out)) = Some (LogInt (2 ^ 63 + 1))
   /\ log_get "calldata_cost" (log_ctx (logged out)) = Some (LogInt 42032)
   /\ log_get "blob_data_bytes" (log_ctx (logged out)) = Some (LogInt 130044)
   /\ 173072 * (2 ^ 63 + 1) > 42032 * 130044
   /\ returned out = blobConfig huge_provider
   /\ log_msg (logged out) = "Using blob channel config"%string
   /\ blobConfig huge_provider <> calldataConfig huge_provider)
  /\ (spec_blobCost mainnet oversized_provider q * (2 ^ 60 + 1)
      <= spec_calldataCost mainnet oversized_provider q * (130044 * 1)
      /\ returned out' = calldataConfig oversized_provider
      /\ log_msg (logged out') = "Using calldata channel config"%string
      /\ calldataConfig oversized_provider <> blobConfig oversized_provider).
Proof.
  cbv zeta. repeat split; try (vm_compute; reflexivity); vm_compute; discriminate.
Qed.

Lemma X2_failed_fetches_return_blob_witness :
  exists out,
    nth_error (ChannelConfig_run mainnet scenario_provider 0%nat 3%nat) 2%nat
      = Some (Returns out)
    /\ returned out = scenario_blobConfig.
Proof.
  destruct (X2_failed_fetches_return_blob mainnet scenario_provider scenario_pricer
              0%nat 3%nat 2%nat eq_refl eq_refl (Nat.lt_succ_diag_r 2%nat) eq_refl)
    as (out & H1 & H2 & _).
  exists out. exact (conj H1 H2).
Defined.

Lemma X3_blob_fee_monotone_witness :
  returned (dec_ChannelConfig mainnet scenario_provider (inl (mkCaps 1 1 2000000)))
  = scenario_calldataConfig.
Proof.
  exact (proj2 (X3_blob_fee_monotone mainnet scenario_provider (mkCaps 1 1 1000000) 2000000
                  ltac:(vm_compute; discriminate) ltac:(vm_compute; discriminate)
                  eq_refl)).
Defined.

Lemma X4_scale_invariant_witness :
  returned (dec_ChannelConfig mainnet scenario_provider
              (inl (mkCaps 1000000000 1000000000 1000000000)))
  = returned (dec_ChannelConfig mainnet scenario_provider (inl (mkCaps 1 1 1))).
Proof.
  exact (proj1 (X4_scale_invariant mainnet scenario_provider (mkCaps 1 1 1) 1000000000
                  eq_refl)).
Defined.

Lemma X5_rule_over_exact_costs_witness :
  returned (dec_ChannelConfig mainnet scenario_provider (inl (mkCaps 1 1 1000000)))
  = scenario_calldataConfig.
Proof.
  pose proof (X5_rule_over_exact_costs mainnet scenario_provider (mkCaps 1 1 1000000)) as H.
  cbn in H. apply H; lia.
Defined.

End Batcher.

(** ** The node's channel reader *)
Module Derive.

Definition Hash_eq_dec (a b : common_Hash) : {a = b} + {a <> b} :=
  list_eq_dec Byte.byte_eq_dec a b.

(** Modelled from the spec: [eth.L1BlockRef] is declared outside the files
    at hand.  The spec gives an origin a block hash, its parent's hash and
    an identity used in diagnostics; the reader compares [Hash] with
    [ParentHash] and prints [ID()] and [ParentID()], the identities (hash
    and number) of the block and of its parent. *)
Record L1BlockRef := mkL1BlockRef {
  Hash : common_Hash;
  Number : Z;                (* uint64 *)
  ParentHash : common_Hash;
  Time : Z                   (* uint64 *)
}.

Definition ID (b : L1BlockRef) : BlockID :=
  {| id_Hash := Hash b; id_Number := Number b |}.

Definition ParentID (b : L1BlockRef) : BlockID :=
  {| id_Hash := ParentHash b;
     id_Number := if 0 <? Number b then Number b - 1 else Number b |}.

(** Go's [bytes.Reader]: the slice read from, the read index and the index
    of the previous rune.  [NewReader] and [Reset] both leave the reader at
    the start of the slice they are given. *)
Record bytes_Reader := mkReader {
  rd_s : list Byte.byte;
  rd_i : Z;
  rd_prevRune : Z
}.

Definition bytes_NewReader (b : list Byte.byte) : bytes_Reader :=
  {| rd_s := b; rd_i := 0; rd_prevRune := -1 |}.

Definition bytes_Reader_Reset (rd : bytes_Reader) (b : list Byte.byte) : bytes_Reader :=
  {| rd_s := b; rd_i := 0; rd_prevRune := -1 |}.

(** The decompression filter and the streaming decoder are libraries
    (compress/zlib and go-ethereum's rlp) that the reader drives through
    their interfaces.  A [Pipeline] is such a pair: the states of a zlib
    reader and of an RLP stream, and the operations the reader calls.  The
    stream reads from the zlib reader, which reads from the byte reader;
    the three objects are shared by reference in Go, so an operation takes
    and returns the state of each object it may touch.

    - [zlib_NewReader rd] reads the header from [rd] and yields a reader
      or an error;
    - [zlib_Reset z rd] re-initialises [z] over [rd], reading the header;
    - [rlp_NewStream limit] and [rlp_Stream_Reset s limit] attach a stream
      to the zlib reader, with an input limit;
    - [rlp_Stream_Decode] decodes the next value into a batch. *)
Class Pipeline := {
  BatchData : Type;
  zlibReader : Type;
  rlp_Stream : Type;
  zlib_NewReader : bytes_Reader -> bytes_Reader * (zlibReader + error);
  zlib_Reset : zlibReader -> bytes_Reader -> bytes_Reader * zlibReader * option error;
  rlp_NewStream : Z -> rlp_Stream;
  rlp_Stream_Reset : rlp_Stream -> Z -> rlp_Stream;
  rlp_Stream_Decode :
    rlp_Stream -> zlibReader -> bytes_Reader ->
    (rlp_Stream * zlibReader * bytes_Reader) * (BatchData + error)
}.

Section Reader.
Context {PL : Pipeline}.

(** The struct; a pointer or interface field that is nil is [None], and so
    is a nil slice. *)
Record ChannelInReader := mkChannelInReader {
  ready : bool;
  r : option bytes_Reader;
  readZlib : option zlibReader;
  readRLP : option rlp_Stream;
  l1Origin : L1BlockRef;
  originComplete : bool;
  data : option (list Byte.byte)
}.

Definition with_ready (cr : ChannelInReader) (v : bool) : ChannelInReader :=
  mkChannelInReader v (r cr) (readZlib cr) (readRLP cr)
    (l1Origin cr) (originComplete cr) (data cr).
Definition with_r (cr : ChannelInReader) (v : option bytes_Reader) : ChannelInReader :=
  mkChannelInReader (ready cr) v (readZlib cr) (readRLP cr)
    (l1Origin cr) (originComplete cr) (data cr).
Definition with_readZlib (cr : ChannelInReader) (v : option zlibReader) : ChannelInReader :=
  mkChannelInReader (ready cr) (r cr) v (readRLP cr)
    (l1Origin cr) (originComplete cr) (data cr).
Definition with_readRLP (cr : ChannelInReader) (v : option rlp_Stream) : ChannelInReader :=
  mkChannelInReader (ready cr) (r cr) (readZlib cr) v
    (l1Origin cr) (originComplete cr) (data cr).
Definition with_l1Origin (cr : ChannelInReader) (v : L1BlockRef) : ChannelInReader :=
  mkChannelInReader (ready cr) (r cr) (readZlib cr) (readRLP cr)
    v (originComplete cr) (data cr).
Definition with_originComplete (cr : ChannelInReader) (v : bool) : ChannelInReader :=
  mkChannelInReader (ready cr) (r cr) (readZlib cr) (readRLP cr)
    (l1Origin cr) v (data cr).
Definition with_data (cr : ChannelInReader) (v : option (list Byte.byte)) : ChannelInReader :=
  mkChannelInReader (ready cr) (r cr) (readZlib cr) (readRLP cr)
    (l1Origin cr) (originComplete cr) v.

Definition zero_Hash : common_Hash := repeat Byte.x00 32.

(** [&ChannelInReader{}]: every field at its zero value. *)
Definition NewChannelInReader : ChannelInReader :=
  {| ready := false; r := None; readZlib := None; readRLP := None;
     l1Origin := mkL1BlockRef zero_Hash 0 zero_Hash 0;
     originComplete := false; data := None |}.

Definition AddOrigin (cr : ChannelInReader) (origin : L1BlockRef)
    : ChannelInReader * option error :=
  match Hash_eq_dec (Hash (l1Origin cr)) (ParentHash origin) with
  | right _ =>
      (cr, Some (fmt_Errorf
                   "next origin %s does not build on top of current origin %s, but on %s"
                   [ID origin; ID (l1Origin cr); ParentID origin]))
  | left _ =>
      (with_originComplete (with_l1Origin cr origin) false, None)
  end.

Definition EndOrigin (cr : ChannelInReader) : ChannelInReader :=
  with_originComplete cr true.

Definition OriginDone (cr : ChannelInReader) : bool := originComplete cr.

Definition WriteChannel (cr : ChannelInReader) (d : option (list Byte.byte))
    : ChannelInReader :=
  with_ready (with_data cr d) false.

(** The outcome of [ReadBatch]: [dest] filled and a nil error, or an
    error; [NilDeref] is the panic of a method called through a nil
    pointer. *)
Inductive ReadResult :=
| Decoded (b : BatchData)
| Failed (e : error)
| NilDeref.

(** Lines 77-89: the zlib reader is created when there is none and reset
    otherwise; either way the header is read from [rd].  The result is the
    byte reader, the field [readZlib] and the error after these lines. *)
Definition init_readZlib (z0 : option zlibReader) (rd : bytes_Reader)
    : bytes_Reader * option zlibReader * option error :=
  match z0 with
  | None =>
      let '(rd1, zr) := zlib_NewReader rd in
      match zr with
      | inr err => (rd1, None, Some err)
      | inl z => (rd1, Some z, None)
      end
  | Some z =>
      let '(rd1, z1, err) := zlib_Reset z rd in
      (rd1, Some z1, err)
  end.

(** Lines 90-95. *)
Definition init_readRLP (cr : ChannelInReader) : ChannelInReader :=
  with_ready
    (with_readRLP cr
       (Some match readRLP cr with
             | None => rlp_NewStream 10000000
             | Some s => rlp_Stream_Reset s 10000000
             end))
    true.

(** Line 97, [cr.readRLP.Decode(dest)]. *)
Definition Decode (cr : ChannelInReader) : ChannelInReader * ReadResult :=
  match readRLP cr, readZlib cr, r cr with
  | Some s, Some z, Some rd =>
      let '(s1, z1, rd1, res) := rlp_Stream_Decode s z rd in
      (with_r (with_readZlib (with_readRLP cr (Some s1)) (Some z1)) (Some rd1),
       match res with
       | inl b => Decoded b
       | inr err => Failed err
       end)
  | _, _, _ => (cr, NilDeref)
  end.

Definition ReadBatch (cr : ChannelInReader) : ChannelInReader * ReadResult :=
  if negb (ready cr) then
    match data cr with
    | None => (cr, Failed io_EOF)
    | Some d =>
        let rd := match r cr with
                  | None => bytes_NewReader d
                  | Some rd0 => bytes_Reader_Reset rd0 d
                  end in
        let '(rd1, z, err) := init_readZlib (readZlib cr) rd in
        let cr1 := with_readZlib (with_r cr (Some rd1)) z in
        match err with
        | Some e => (cr1, Failed e)
        | None => Decode (init_readRLP cr1)
        end
    end
  else Decode cr.

Definition NextChannel (cr : ChannelInReader) : ChannelInReader :=
  with_data (with_ready cr false) None.

Definition Reset (cr : ChannelInReader) (origin : L1BlockRef) : ChannelInReader :=
  with_l1Origin (with_ready cr false) origin.

Definition CurrentL1Origin (cr : ChannelInReader) : L1BlockRef := l1Origin cr.

(** The calls a driver can make, and the reader after a sequence of them
    (results dropped). *)
Inductive Call :=
| CallAddOrigin (origin : L1BlockRef)
| CallEndOrigin
| CallWriteChannel (d : option (list Byte.byte))
| CallReadBatch
| CallNextChannel
| CallReset (origin : L1BlockRef).

Definition call (cr : ChannelInReader) (c : Call) : ChannelInReader :=
  match c with
  | CallAddOrigin origin => fst (AddOrigin cr origin)
  | CallEndOrigin => EndOrigin cr
  | CallWriteChannel d => WriteChannel cr d
  | CallReadBatch => fst (ReadBatch cr)
  | CallNextChannel => NextChannel cr
  | CallReset origin => Reset cr origin
  end.

Definition calls (cr : ChannelInReader) (cs : list Call) : ChannelInReader :=
  fold_left call cs cr.

(** Which calls are which. *)
Definition buffer_call (c : Call) : bool :=
  match c with
  | CallReadBatch | CallWriteChannel _ | CallNextChannel => true
  | _ => false
  end.

Definition is_EndOrigin (c : Call) : bool :=
  match c with
  | CallEndOrigin => true
  | _ => false
  end.

Definition replaces_channel (c : Call) : bool :=
  match c with
  | CallWriteChannel _ | CallNextChannel => true
  | _ => false
  end.

Definition is_NextChannel (c : Call) : bool :=
  match c with
  | CallNextChannel => true
  | _ => false
  end.

(** The error, if any, of initialising the decompression filter over the
    bytes [d] in the reader [cr]. *)
Definition init_error (cr : ChannelInReader) (d : list Byte.byte) : option error :=
  snd (init_readZlib (readZlib cr) (bytes_NewReader d)).

(** The header check of the filter depends on the bytes it is given and
    not on what the zlib reader held before. *)
Definition header_check_stateless : Prop :=
  forall (z z' : zlibReader) (rd : bytes_Reader),
    snd (zlib_Reset z rd) = snd (zlib_Reset z' rd).

(** A reader that is ready has its three pipeline objects. *)
Definition pipeline_built (cr : ChannelInReader) : Prop :=
  ready cr = true -> r cr <> None /\ readZlib cr <> None /\ readRLP cr <> None.

(** The claim C4 as a statement about a pipeline: once a read has failed
    with an error other than [io.EOF], no read yields a batch as long as
    [NextChannel] has not been called. *)
Definition corruption_latched : Prop :=
  forall (cr : ChannelInReader) (e : error) (cs : list Call),
    snd (ReadBatch cr) = Failed e ->
    e <> io_EOF ->
    forallb (fun c => negb (is_NextChannel c)) cs = true ->
    forall b, snd (ReadBatch (calls (fst (ReadBatch cr)) cs)) <> Decoded b.

End Reader.

(** *** A pipeline that runs

    The concrete runs below need a filter and a decoder that compute.
    This one keeps the two stages and their failure modes and nothing
    else: the filter's header is the single byte 0x78, after which the
    payload passes through unchanged; a structured value is one byte, the
    byte 0xff being malformed; the end of the bytes is [io.EOF]. *)

(* bytes.Reader.ReadByte *)
Definition ReadByte (rd : bytes_Reader) : bytes_Reader * option Byte.byte :=
  let rd1 := {| rd_s := rd_s rd; rd_i := rd_i rd; rd_prevRune := -1 |} in
  if Z.of_nat (List.length (rd_s rd)) <=? rd_i rd then (rd1, None)
  else
    ({| rd_s := rd_s rd; rd_i := rd_i rd + 1; rd_prevRune := -1 |},
     nth_error (rd_s rd) (Z.to_nat (rd_i rd))).

Definition plain_header (rd : bytes_Reader) : bytes_Reader * option error :=
  match ReadByte rd with
  | (rd1, None) => (rd1, Some (lib_error "unexpected EOF"))
  | (rd1, Some b) =>
      if Byte.eqb b Byte.x78 then (rd1, None)
      else (rd1, Some (lib_error "zlib: invalid header"))
  end.

Definition plain_decode (limit : Z) (z : unit) (rd : bytes_Reader)
    : (Z * unit * bytes_Reader) * (Byte.byte + error) :=
  match ReadByte rd with
  | (rd1, None) => ((limit, z, rd1), inr io_EOF)
  | (rd1, Some b) =>
      ((limit, z, rd1),
       if Byte.eqb b Byte.xff then inr (lib_error "rlp: malformed value") else inl b)
  end.

#[export] Instance plain_pipeline : Pipeline := {|
  BatchData := Byte.byte;
  zlibReader := unit;
  rlp_Stream := Z;
  zlib_NewReader rd :=
    let '(rd1, err) := plain_header rd in
    (rd1, match err with Some e => inr e | None => inl tt end);
  zlib_Reset _ rd :=
    let '(rd1, err) := plain_header rd in (rd1, tt, err);
  rlp_NewStream limit := limit;
  rlp_Stream_Reset _ limit := limit;
  rlp_Stream_Decode := plain_decode
|}.

Definition origin_a : L1BlockRef :=
  {| Hash := [Byte.x0a]; Number := 10; ParentHash := [Byte.x09]; Time := 120 |}.

Definition origin_b : L1BlockRef :=
  {| Hash := [Byte.x0b]; Number := 11; ParentHash := [Byte.x0a]; Time := 132 |}.

Definition origin_x : L1BlockRef :=
  {| Hash := [Byte.x0c]; Number := 11; ParentHash := [Byte.x07]; Time := 132 |}.

(** A channel with a bad header, a channel holding the value 0x01, and a
    channel whose second value is malformed. *)
Definition bad_header_channel : list Byte.byte := [Byte.x00; Byte.x00].
Definition good_channel : list Byte.byte := [Byte.x78; Byte.x01].
Definition bad_value_channel : list Byte.byte := [Byte.x78; Byte.x01; Byte.xff; Byte.x02].

(** *** Properties of the reader *)
Section ReaderFacts.
Context {PL : Pipeline}.

(** [Decode] touches the three pipeline objects only. *)
Lemma Decode_frame (cr : ChannelInReader) :
  ready (fst (Decode cr)) = ready cr
  /\ l1Origin (fst (Decode cr)) = l1Origin cr
  /\ originComplete (fst (Decode cr)) = originComplete cr
  /\ data (fst (Decode cr)) = data cr.
Proof.
  unfold Decode.
  destruct (readRLP cr) as [s |], (readZlib cr) as [z |], (r cr) as [rd |];
    try (cbn; auto; fail).
  destruct (rlp_Stream_Decode s z rd) as [[[s1 z1] rd1] res]. cbn. auto.
Qed.

(** [ReadBatch] leaves the origin, the origin-complete flag and the
    buffered bytes as they are. *)
Lemma ReadBatch_frame (cr : ChannelInReader) :
  l1Origin (fst (ReadBatch cr)) = l1Origin cr
  /\ originComplete (fst (ReadBatch cr)) = originComplete cr
  /\ data (fst (ReadBatch cr)) = data cr.
Proof.
  unfold ReadBatch.
  destruct (ready cr); cbn [negb].
  - destruct (Decode_frame cr) as (_ & H1 & H2 & H3). auto.
  - destruct (data cr) as [d |] eqn:Hd; [| cbn; auto].
    destruct (init_readZlib _ _) as [[rd1 z] err].
    destruct err as [e |].
    + cbn. auto.
    + match goal with |- context [Decode ?c] =>
        destruct (Decode_frame c) as (_ & H1 & H2 & H3) end.
      rewrite H1, H2, H3. cbn. auto.
Qed.

(** A read that fails and leaves the reader not ready, with bytes
    buffered, failed in the initialisation of the filter. *)
Lemma ReadBatch_not_ready_after (cr : ChannelInReader) (d : list Byte.byte) :
  ready (fst (ReadBatch cr)) = false ->
  data cr = Some d ->
  ready cr = false
  /\ exists rd1 z e,
       init_readZlib (readZlib cr) (bytes_NewReader d) = (rd1, z, Some e)
       /\ ReadBatch cr = (with_readZlib (with_r cr (Some rd1)) z, Failed e).
Proof.
  unfold ReadBatch. intros Hr Hd.
  destruct (ready cr) eqn:Hready; cbn [negb] in *.
  - destruct (Decode_frame cr) as (H & _). congruence.
  - split; [reflexivity |]. rewrite Hd in *.
    replace (match r cr with
             | Some rd0 => bytes_Reader_Reset rd0 d
             | None => bytes_NewReader d
             end) with (bytes_NewReader d) in * by (destruct (r cr); reflexivity).
    destruct (init_readZlib _ _) as [[rd1 z] err].
    destruct err as [e |]; [eauto |].
    match type of Hr with context [Decode ?c] =>
      destruct (Decode_frame c) as (H & _) end.
    rewrite H in Hr. cbn in Hr. discriminate.
Qed.

(** The other direction: when the initialisation fails, this is what
    [ReadBatch] does. *)
Lemma ReadBatch_init_fails (cr : ChannelInReader) (d : list Byte.byte) (e : error) :
  ready cr = false ->
  data cr = Some d ->
  init_error cr d = Some e ->
  exists rd1 z,
    init_readZlib (readZlib cr) (bytes_NewReader d) = (rd1, z, Some e)
    /\ ReadBatch cr = (with_readZlib (with_r cr (Some rd1)) z, Failed e).
Proof.
  unfold ReadBatch, init_error. intros Hready Hd He.
  rewrite Hready, Hd. cbn [negb].
  replace (match r cr with
           | Some rd0 => bytes_Reader_Reset rd0 d
           | None => bytes_NewReader d
           end) with (bytes_NewReader d) by (destruct (r cr); reflexivity).
  destruct (init_readZlib _ _) as [[rd1 z] err]. cbn in He. subst err.
  eauto.
Qed.

(** After a failed initialisation the same initialisation fails again. *)
Lemma init_error_again (z0 : option zlibReader) (rd rd1 : bytes_Reader)
    (z : option zlibReader) (e : error) :
  header_check_stateless ->
  init_readZlib z0 rd = (rd1, z, Some e) ->
  snd (init_readZlib z rd) = Some e.
Proof.
  intros Hst. unfold init_readZlib.
  destruct z0 as [z0 |].
  - destruct (zlib_Reset z0 rd) as [[rd2 z2] err] eqn:E. intros [= <- <- ->].
    specialize (Hst z2 z0 rd). rewrite E in Hst.
    destruct (zlib_Reset z2 rd) as [[rd3 z3] err3]. cbn in *. exact Hst.
  - destruct (zlib_NewReader rd) as [rd2 [z2 | err]] eqn:E; intros [= <- <- <-].
    reflexivity.
Qed.

(** When the initialisation succeeds there is a zlib reader. *)
Lemma init_readZlib_ok (z0 : option zlibReader) (rd rd1 : bytes_Reader)
    (z : option zlibReader) :
  init_readZlib z0 rd = (rd1, z, None) -> z <> None.
Proof.
  unfold init_readZlib. destruct z0 as [z0 |].
  - destruct (zlib_Reset z0 rd) as [[rd2 z2] err]. intros [= <- <- ->]. discriminate.
  - destruct (zlib_NewReader rd) as [rd2 [z2 | err]]; intros [= <- <-]. discriminate.
Qed.

Lemma Decode_built (cr : ChannelInReader) :
  r cr <> None -> readZlib cr <> None -> readRLP cr <> None ->
  snd (Decode cr) <> NilDeref
  /\ r (fst (Decode cr)) <> None
  /\ readZlib (fst (Decode cr)) <> None
  /\ readRLP (fst (Decode cr)) <> None.
Proof.
  unfold Decode. intros H1 H2 H3.
  destruct (readRLP cr) as [s |], (readZlib cr) as [z |], (r cr) as [rd |];
    try congruence.
  destruct (rlp_Stream_Decode s z rd) as [[[s1 z1] rd1] res]. cbn.
  repeat split; try discriminate. destruct res; discriminate.
Qed.

(** [ReadBatch] never calls through a nil pointer in a reader whose ready
    flag was set by [ReadBatch] itself, and it keeps such readers so. *)
Lemma ReadBatch_built (cr : ChannelInReader) :
  pipeline_built cr ->
  snd (ReadBatch cr) <> NilDeref /\ pipeline_built (fst (ReadBatch cr)).
Proof.
  unfold pipeline_built, ReadBatch. intros Hb.
  destruct (ready cr) eqn:Hready; cbn [negb].
  - destruct Hb as (H1 & H2 & H3); [reflexivity |].
    destruct (Decode_built cr H1 H2 H3) as (Hn & Hd). auto.
  - destruct (data cr) as [d |]; [| cbn; split; [discriminate | congruence]].
    destruct (init_readZlib _ _) as [[rd1 z] err] eqn:E.
    destruct err as [e |].
    + cbn. split; [discriminate | congruence].
    + pose proof (init_readZlib_ok _ _ _ _ E) as Hz.
      match goal with |- context [Decode ?c] =>
        destruct (Decode_built c) as (Hn & Hd); [cbn; congruence .. |] end.
      auto.
Qed.

Lemma call_built (cr : ChannelInReader) (c : Call) :
  pipeline_built cr -> pipeline_built (call cr c).
Proof.
  intros Hb. destruct c as [o | | d | | | o]; cbn [call].
  - unfold AddOrigin. destruct (Hash_eq_dec _ _); cbn; auto.
  - exact Hb.
  - intros H. cbn in H. discriminate.
  - apply ReadBatch_built, Hb.
  - intros H. cbn in H. discriminate.
  - intros H. cbn in H. discriminate.
Qed.

(** Every reader a driver can reach from [NewChannelInReader]. *)
Lemma reachable_built (cs : list Call) :
  pipeline_built (calls NewChannelInReader cs).
Proof.
  unfold calls.
  assert (H0 : pipeline_built NewChannelInReader) by (intros H; discriminate).
  revert H0. generalize NewChannelInReader.
  induction cs as [| c cs IH]; intros cr Hb; cbn [fold_left]; [exact Hb |].
  apply IH, call_built, Hb.
Qed.

(** Which calls can change the origin: only [Reset] and an [AddOrigin]
    that succeeds. *)
Lemma call_changes_origin (cr : ChannelInReader) (c : Call) :
  CurrentL1Origin (call cr c) <> CurrentL1Origin cr ->
  (exists o, c = CallReset o)
  \/ (exists o, c = CallAddOrigin o /\ snd (AddOrigin cr o) = None).
Proof.
  unfold CurrentL1Origin.
  destruct c as [o | | d | | | o]; cbn [call]; intros H.
  - right. exists o. split; [reflexivity |].
    unfold AddOrigin in *. destruct (Hash_eq_dec _ _); [reflexivity |].
    cbn in H. congruence.
  - cbn in H. congruence.
  - cbn in H. congruence.
  - destruct (ReadBatch_frame cr) as (H1 & _). congruence.
  - cbn in H. congruence.
  - left. eauto.
Qed.

Lemma calls_buffer_origin (cs : list Call) (cr : ChannelInReader) :
  forallb buffer_call cs = true ->
  CurrentL1Origin (calls cr cs) = CurrentL1Origin cr.
Proof.
  unfold calls. revert cr.
  induction cs as [| c cs IH]; intros cr Hcs; cbn [fold_left]; [reflexivity |].
  cbn [forallb] in Hcs. apply andb_true_iff in Hcs as [Hc Hcs].
  rewrite IH by exact Hcs.
  unfold CurrentL1Origin.
  destruct c as [o | | d | | | o]; cbn in Hc; try discriminate; cbn [call];
    try reflexivity.
  apply ReadBatch_frame.
Qed.

(** C7.  [ReadBatch], [WriteChannel] and [NextChannel] never change the
    current origin: after any sequence of these calls [CurrentL1Origin]
    returns what it returned before; a call that does change it is a
    [Reset] or an [AddOrigin] that succeeds. *)
Theorem C7_origin_stable (cr : ChannelInReader) :
  (forall cs : list Call,
     forallb buffer_call cs = true ->
     CurrentL1Origin (calls cr cs) = CurrentL1Origin cr)
  /\ (forall c : Call,
     CurrentL1Origin (call cr c) <> CurrentL1Origin cr ->
     (exists o, c = CallReset o)
     \/ (exists o, c = CallAddOrigin o /\ snd (AddOrigin cr o) = None)).
Proof.
  split.
  - intros cs Hcs. apply calls_buffer_origin, Hcs.
  - apply call_changes_origin.
Qed.

(** C8.  In the Empty state (no bytes buffered, not ready) [ReadBatch]
    returns [io.EOF] and leaves the reader as it is. *)
Theorem C8_empty_needs_more_data (cr : ChannelInReader) :
  ready cr = false ->
  data cr = None ->
  ReadBatch cr = (cr, Failed io_EOF).
Proof.
  intros Hready Hd. unfold ReadBatch. rewrite Hready, Hd. reflexivity.
Qed.

(** C5.  In the Buffered-NotReady state, when the initialisation of the
    decompression filter over the buffered bytes fails, [ReadBatch]
    returns that error unchanged and the reader stays Buffered-NotReady:
    the ready flag is still false and the bytes are still buffered (and
    origin and origin-complete flag are untouched). *)
Theorem C5_init_failure_stays_buffered (cr : ChannelInReader)
    (d : list Byte.byte) (e : error) :
  ready cr = false ->
  data cr = Some d ->
  init_error cr d = Some e ->
  snd (ReadBatch cr) = Failed e
  /\ ready (fst (ReadBatch cr)) = false
  /\ data (fst (ReadBatch cr)) = Some d
  /\ l1Origin (fst (ReadBatch cr)) = l1Origin cr
  /\ originComplete (fst (ReadBatch cr)) = originComplete cr.
Proof.
  intros Hready Hd He.
  destruct (ReadBatch_init_fails cr d e Hready Hd He) as (rd1 & z & _ & Heq).
  rewrite Heq. cbn. auto.
Qed.

(** C6.  [AddOrigin] fails exactly when the parent hash of the new origin
    differs from the hash of the current origin; when it fails the reader
    is unchanged, and when it succeeds the current origin is the new
    one. *)
Theorem C6_AddOrigin_continuity (cr : ChannelInReader) (origin : L1BlockRef) :
  (snd (AddOrigin cr origin) <> None
     <-> ParentHash origin <> Hash (CurrentL1Origin cr))
  /\ (snd (AddOrigin cr origin) <> None -> fst (AddOrigin cr origin) = cr)
  /\ (snd (AddOrigin cr origin) = None
      -> CurrentL1Origin (fst (AddOrigin cr origin)) = origin).
Proof.
  unfold AddOrigin, CurrentL1Origin.
  destruct (Hash_eq_dec (Hash (l1Origin cr)) (ParentHash origin)) as [Heq | Hne]; cbn.
  - repeat split; intros; congruence.
  - repeat split; intros; congruence.
Qed.

Lemma call_keeps_not_complete (cr : ChannelInReader) (c : Call) :
  is_EndOrigin c = false ->
  originComplete cr = false ->
  originComplete (call cr c) = false.
Proof.
  destruct c as [o | | d | | | o]; cbn [is_EndOrigin call]; intros Hc H;
    try discriminate; try exact H.
  - unfold AddOrigin. destruct (Hash_eq_dec _ _); cbn; auto.
  - destruct (ReadBatch_frame cr) as (_ & H2 & _). congruence.
Qed.

(** C10.  A successful [AddOrigin] clears the origin-complete flag, and
    [OriginDone] then returns false after any calls other than
    [EndOrigin], after which it returns true; an [AddOrigin] that fails
    leaves the flag as it was. *)
Theorem C10_AddOrigin_clears_complete (cr : ChannelInReader) (origin : L1BlockRef) :
  (snd (AddOrigin cr origin) = None ->
     forall cs : list Call,
       forallb (fun c => negb (is_EndOrigin c)) cs = true ->
       OriginDone (calls (fst (AddOrigin cr origin)) cs) = false
       /\ OriginDone (EndOrigin (calls (fst (AddOrigin cr origin)) cs)) = true)
  /\ (snd (AddOrigin cr origin) <> None ->
     OriginDone (fst (AddOrigin cr origin)) = OriginDone cr).
Proof.
  split.
  - intros Hok cs Hcs. split; [| reflexivity].
    assert (H0 : originComplete (fst (AddOrigin cr origin)) = false).
    { unfold AddOrigin in *. destruct (Hash_eq_dec _ _); cbn in *; congruence. }
    revert H0 Hcs. generalize (fst (AddOrigin cr origin)). unfold calls, OriginDone.
    induction cs as [| c cs IH]; intros cr0 H0 Hcs; cbn [fold_left]; [exact H0 |].
    cbn [forallb] in Hcs. apply andb_true_iff in Hcs as [Hc Hcs].
    apply IH; [| exact Hcs].
    apply call_keeps_not_complete; [| exact H0].
    now apply negb_true_iff.
  - unfold AddOrigin. destruct (Hash_eq_dec _ _); cbn; congruence.
Qed.

(** The reader is Buffered-NotReady over the bytes [d], and initialising
    the filter over them fails with [e]. *)
Definition init_failed (cr : ChannelInReader) (d : list Byte.byte) (e : error) : Prop :=
  ready cr = false /\ data cr = Some d /\ init_error cr d = Some e.

Lemma init_failed_ReadBatch (cr : ChannelInReader) (d : list Byte.byte) (e : error) :
  header_check_stateless ->
  init_failed cr d e ->
  snd (ReadBatch cr) = Failed e /\ init_failed (fst (ReadBatch cr)) d e.
Proof.
  intros Hst (Hready & Hd & He).
  destruct (ReadBatch_init_fails cr d e Hready Hd He) as (rd1 & z & Hinit & Heq).
  rewrite Heq. cbn [fst snd]. split; [reflexivity |].
  repeat split; cbn; auto.
  unfold init_error. cbn. eapply init_error_again; eauto.
Qed.

Lemma init_failed_call (cr : ChannelInReader) (c : Call)
    (d : list Byte.byte) (e : error) :
  header_check_stateless ->
  replaces_channel c = false ->
  init_failed cr d e ->
  init_failed (call cr c) d e.
Proof.
  intros Hst Hc Hf.
  destruct c as [o | | dd | | | o]; cbn [replaces_channel] in Hc;
    try discriminate; cbn [call].
  - unfold AddOrigin. destruct (Hash_eq_dec _ _); [| exact Hf].
    destruct Hf as (H1 & H2 & H3). repeat split; cbn; auto.
  - exact Hf.
  - apply init_failed_ReadBatch; assumption.
  - destruct Hf as (H1 & H2 & H3). repeat split; cbn; auto.
Qed.

(** C4, as amended.  Provided the filter's header check depends only on
    the bytes: once [ReadBatch] has failed in the initialisation of the
    filter, every later [ReadBatch] fails with the same error, the reader
    staying Buffered-NotReady over the same bytes, whatever calls other
    than [WriteChannel] and [NextChannel] are made in between; and
    [NextChannel] then leaves the reader Empty, where [ReadBatch] returns
    [io.EOF]. *)
Theorem C4_init_failure_persists (cr : ChannelInReader) (d : list Byte.byte)
    (e : error) (cs : list Call) :
  header_check_stateless ->
  ready cr = false ->
  data cr = Some d ->
  init_error cr d = Some e ->
  forallb (fun c => negb (replaces_channel c)) cs = true ->
  let cr' := calls (fst (ReadBatch cr)) cs in
  snd (ReadBatch cr') = Failed e
  /\ ready cr' = false
  /\ data cr' = Some d
  /\ data (NextChannel cr') = None
  /\ ReadBatch (NextChannel cr') = (NextChannel cr', Failed io_EOF).
Proof.
  intros Hst Hready Hd He Hcs cr'.
  assert (Hf : init_failed cr' d e).
  { subst cr'. unfold calls.
    assert (H0 : init_failed (fst (ReadBatch cr)) d e)
      by (apply init_failed_ReadBatch; [exact Hst | repeat split; assumption]).
    revert H0 Hcs. generalize (fst (ReadBatch cr)).
    induction cs as [| c cs IH]; intros cr0 H0 Hcs; cbn [fold_left]; [exact H0 |].
    cbn [forallb] in Hcs. apply andb_true_iff in Hcs as [Hc Hcs].
    apply IH; [| exact Hcs].
    apply init_failed_call; [exact Hst | now apply negb_true_iff | exact H0]. }
  destruct (init_failed_ReadBatch cr' d e Hst Hf) as (Hres & _).
  destruct Hf as (H1 & H2 & _).
  repeat split; auto.
Qed.

(** The reader keeps no record of an earlier failure: what [ReadBatch]
    returns after [WriteChannel] depends on the new bytes and on the two
    pipeline objects, and on nothing else of the reader. *)
Lemma ReadBatch_after_WriteChannel (cr cr0 : ChannelInReader)
    (d : option (list Byte.byte)) :
  readZlib cr = readZlib cr0 ->
  readRLP cr = readRLP cr0 ->
  snd (ReadBatch (WriteChannel cr d)) = snd (ReadBatch (WriteChannel cr0 d)).
Proof.
  intros Hz Hs. unfold ReadBatch, WriteChannel. cbn.
  destruct d as [d |]; [| reflexivity].
  replace (match r cr with
           | Some rd0 => bytes_Reader_Reset rd0 d
           | None => bytes_NewReader d
           end) with (bytes_NewReader d) by (destruct (r cr); reflexivity).
  replace (match r cr0 with
           | Some rd0 => bytes_Reader_Reset rd0 d
           | None => bytes_NewReader d
           end) with (bytes_NewReader d) by (destruct (r cr0); reflexivity).
  rewrite Hz.
  destruct (init_readZlib _ _) as [[rd1 z] err].
  destruct err as [e |]; [reflexivity |].
  unfold Decode, init_readRLP. cbn. rewrite Hs.
  destruct z as [z |]; [| reflexivity].
  destruct (rlp_Stream_Decode _ z rd1) as [[[s1 z1] rd2] res]. reflexivity.
Qed.

End ReaderFacts.

(** *** Concrete runs, over [plain_pipeline] *)

Lemma plain_header_stateless : @header_check_stateless plain_pipeline.
Proof. intros z z' rd. reflexivity. Qed.

(** A reader reset to [origin_a] and given the channel [d]. *)
Definition fed (d : list Byte.byte) : @ChannelInReader plain_pipeline :=
  WriteChannel (Reset NewChannelInReader origin_a) (Some d).

Lemma C4_init_failure_persists_witness :
  snd (ReadBatch
         (calls (fst (ReadBatch (fed bad_header_channel)))
            [CallReadBatch; CallAddOrigin origin_x; CallReset origin_b; CallReadBatch]))
  = Failed (lib_error "zlib: invalid header").
Proof.
  exact (proj1 (C4_init_failure_persists (fed bad_header_channel) bad_header_channel
                  (lib_error "zlib: invalid header")
                  [CallReadBatch; CallAddOrigin origin_x; CallReset origin_b; CallReadBatch]
                  plain_header_stateless eq_refl eq_refl eq_refl eq_refl)).
Defined.

(** C4, the claim as stated fails: the reader has no flag that records a
    failed read.  (1) After a read has failed on a bad header,
    [WriteChannel] with a good channel makes the next read succeed, and
    [NextChannel] was never called.  (2) After a read has failed on a
    malformed value, [Reset] clears the ready flag, the next read
    re-initialises the pipeline over the same bytes, and the first value
    of the channel is decoded again.  So [corruption_latched] is false. *)
Lemma C4_corruption_not_latched :
  let cr1 := fst (ReadBatch (fed bad_header_channel)) in
  let t2 := fst (ReadBatch (fst (ReadBatch (fed bad_value_channel)))) in
  (snd (ReadBatch (fed bad_header_channel)) = Failed (lib_error "zlib: invalid header")
   /\ snd (ReadBatch (calls cr1 [CallWriteChannel (Some good_channel)]))
      = Decoded Byte.x01)
  /\ (snd (ReadBatch (fst (ReadBatch (fed bad_value_channel))))
      = Failed (lib_error "rlp: malformed value")
      /\ snd (ReadBatch (calls t2 [CallReset origin_a])) = Decoded Byte.x01)
  /\ ~ @corruption_latched plain_pipeline.
Proof.
  cbv zeta. split; [| split].
  - split; vm_compute; reflexivity.
  - split; vm_compute; reflexivity.
  - intros H.
    apply (H (fed bad_header_channel) (lib_error "zlib: invalid header")
             [CallWriteChannel (Some good_channel)]
             eq_refl ltac:(discriminate) eq_refl Byte.x01).
    vm_compute. reflexivity.
Qed.

(** [ReadBatch] hands every read to the stream, so what follows a failed
    decode is the stream's business: this one skips the malformed value
    and the next read yields the value after it. *)
Example read_after_malformed_value :
  let t1 := fst (ReadBatch (fed bad_value_channel)) in
  let t2 := fst (ReadBatch t1) in
  let t3 := fst (ReadBatch t2) in
  snd (ReadBatch (fed bad_value_channel)) = Decoded Byte.x01
  /\ snd (ReadBatch t1) = Failed (lib_error "rlp: malformed value")
  /\ snd (ReadBatch t2) = Decoded Byte.x02
  /\ snd (ReadBatch t3) = Failed io_EOF.
Proof. cbv zeta. repeat split; vm_compute; reflexivity. Qed.

Lemma C5_init_failure_stays_buffered_witness :
  snd (ReadBatch (fed bad_header_channel)) = Failed (lib_error "zlib: invalid header")
  /\ ready (fst (ReadBatch (fed bad_header_channel))) = false
  /\ data (fst (ReadBatch (fed bad_header_channel))) = Some bad_header_channel.
Proof.
  destruct (C5_init_failure_stays_buffered (fed bad_header_channel) bad_header_channel
              (lib_error "zlib: invalid header") eq_refl eq_refl eq_refl)
    as (H1 & H2 & H3 & _).
  exact (conj H1 (conj H2 H3)).
Defined.

Example AddOrigin_accepts_child :
  AddOrigin (fed good_channel) origin_b
  = (with_originComplete (with_l1Origin (fed good_channel) origin_b) false, None).
Proof. vm_compute. reflexivity. Qed.

Example AddOrigin_rejects_stranger :
  AddOrigin (fed good_channel) origin_x
  = (fed good_channel,
     Some (fmt_Errorf
             "next origin %s does not build on top of current origin %s, but on %s"
             [ID origin_x; ID origin_a; ParentID origin_x])).
Proof. vm_compute. reflexivity. Qed.

Lemma C7_origin_stable_witness :
  CurrentL1Origin
    (calls (fed bad_value_channel)
       [CallReadBatch; CallReadBatch; CallNextChannel; CallReadBatch;
        CallWriteChannel (Some good_channel); CallReadBatch; CallReadBatch])
  = origin_a.
Proof.
  exact (proj1 (C7_origin_stable (fed bad_value_channel))
           [CallReadBatch; CallReadBatch; CallNextChannel; CallReadBatch;
            CallWriteChannel (Some good_channel); CallReadBatch; CallReadBatch]
           eq_refl).
Defined.

Lemma C8_empty_needs_more_data_witness :
  ReadBatch (@NewChannelInReader plain_pipeline)
  = (NewChannelInReader, Failed io_EOF).
Proof.
  exact (C8_empty_needs_more_data NewChannelInReader eq_refl eq_refl).
Defined.

(** The origin-complete flag along a run: set by [EndOrigin], cleared by
    the next accepted origin, untouched by a rejected one. *)
Example origin_complete_run :
  let c1 := EndOrigin (fed good_channel) in
  OriginDone c1 = true
  /\ OriginDone (fst (AddOrigin c1 origin_x)) = true
  /\ OriginDone (fst (AddOrigin c1 origin_b)) = false
  /\ OriginDone (calls (fst (AddOrigin c1 origin_b))
                   [CallReadBatch; CallReadBatch; CallNextChannel]) = false.
Proof. cbv zeta. repeat split; vm_compute; reflexivity. Qed.

(** *** Further properties of the reader *)

(** A list of origins each of which builds on the one before, the first on
    the block with hash [h]. *)
Fixpoint chained (h : common_Hash) (origins : list L1BlockRef) : Prop :=
  match origins with
  | [] => True
  | o :: rest => ParentHash o = h /\ chained (Hash o) rest
  end.

Definition supplies_bytes (c : Call) : bool :=
  match c with
  | CallWriteChannel (Some _) => true
  | _ => false
  end.

Definition clears_ready (c : Call) : bool :=
  match c with
  | CallWriteChannel _ | CallNextChannel | CallReset _ => true
  | _ => false
  end.

Section ReaderMore.
Context {PL : Pipeline}.

Lemma Decode_origin_frame (cr : ChannelInReader) (o : L1BlockRef) (b : bool) :
  Decode (with_originComplete (with_l1Origin cr o) b)
  = (with_originComplete (with_l1Origin (fst (Decode cr)) o) b, snd (Decode cr)).
Proof.
  destruct cr as [rdy rr z s o0 c0 d]. unfold Decode. cbn.
  destruct s as [s |]; [| reflexivity].
  destruct z as [z |]; [| reflexivity].
  destruct rr as [rd |]; [| reflexivity].
  destruct (rlp_Stream_Decode s z rd) as [[[s1 z1] rd1] res]. reflexivity.
Qed.

(** [ReadBatch] neither reads nor writes the origin and the
    origin-complete flag. *)
Lemma ReadBatch_origin_frame (cr : ChannelInReader) (o : L1BlockRef) (b : bool) :
  ReadBatch (with_originComplete (with_l1Origin cr o) b)
  = (with_originComplete (with_l1Origin (fst (ReadBatch cr)) o) b, snd (ReadBatch cr)).
Proof.
  unfold ReadBatch.
  replace (ready (with_originComplete (with_l1Origin cr o) b)) with (ready cr)
    by reflexivity.
  destruct (ready cr) eqn:Hready; cbn [negb]; [apply Decode_origin_frame |].
  replace (data (with_originComplete (with_l1Origin cr o) b)) with (data cr)
    by reflexivity.
  destruct (data cr) as [d |] eqn:Hd; [| reflexivity].
  replace (r (with_originComplete (with_l1Origin cr o) b)) with (r cr) by reflexivity.
  replace (readZlib (with_originComplete (with_l1Origin cr o) b)) with (readZlib cr)
    by reflexivity.
  destruct (init_readZlib _ _) as [[rd1 z] err].
  destruct err as [e |]; [reflexivity |].
  match goal with |- _ = (with_originComplete (with_l1Origin (fst (Decode ?c)) o) b, _) =>
    rewrite <- (Decode_origin_frame c o b) end.
  reflexivity.
Qed.

(** X6.  In every reader that a driver can reach from
    [NewChannelInReader], by any sequence of calls, a set ready flag comes
    with the three pipeline objects, and [ReadBatch] never calls [Decode]
    through a nil stream. *)
Theorem X6_reachable_never_nil (cs : list Call) :
  pipeline_built (calls NewChannelInReader cs)
  /\ snd (ReadBatch (calls NewChannelInReader cs)) <> NilDeref.
Proof.
  pose proof (reachable_built cs) as Hb.
  split; [exact Hb | apply ReadBatch_built, Hb].
Qed.

(** X7.  Reading and origin bookkeeping do not interfere: [ReadBatch]
    returns the same result, and leaves the same reader, whether
    [AddOrigin] (accepted or rejected) or [EndOrigin] is called before it
    or after it, and [AddOrigin] gives the same verdict either way. *)
Theorem X7_ReadBatch_commutes_with_origin (cr : ChannelInReader) (o : L1BlockRef) :
  ReadBatch (fst (AddOrigin cr o))
    = (fst (AddOrigin (fst (ReadBatch cr)) o), snd (ReadBatch cr))
  /\ snd (AddOrigin (fst (ReadBatch cr)) o) = snd (AddOrigin cr o)
  /\ ReadBatch (EndOrigin cr) = (EndOrigin (fst (ReadBatch cr)), snd (ReadBatch cr)).
Proof.
  destruct (ReadBatch_frame cr) as (Ho & Hc & _).
  repeat split.
  - unfold AddOrigin. rewrite Ho.
    destruct (Hash_eq_dec (Hash (l1Origin cr)) (ParentHash o)); cbn [fst].
    + apply ReadBatch_origin_frame.
    + destruct (ReadBatch cr); reflexivity.
  - unfold AddOrigin. rewrite Ho.
    destruct (Hash_eq_dec (Hash (l1Origin cr)) (ParentHash o)); reflexivity.
  - unfold EndOrigin.
    replace (with_originComplete cr true)
      with (with_originComplete (with_l1Origin cr (l1Origin cr)) true)
      by (destruct cr; reflexivity).
    rewrite ReadBatch_origin_frame. f_equal.
    rewrite <- Ho. generalize (fst (ReadBatch cr)). intros cr1.
    destruct cr1; reflexivity.
Qed.

Lemma call_keeps_empty (cr : ChannelInReader) (c : Call) :
  supplies_bytes c = false ->
  ready cr = false /\ data cr = None ->
  ready (call cr c) = false /\ data (call cr c) = None.
Proof.
  intros Hc [Hready Hd].
  destruct c as [o | | [d |] | | | o]; cbn [supplies_bytes] in Hc;
    try discriminate; cbn [call].
  - unfold AddOrigin. destruct (Hash_eq_dec _ _); cbn; auto.
  - cbn. auto.
  - cbn. auto.
  - unfold ReadBatch. rewrite Hready, Hd. cbn. auto.
  - cbn. auto.
  - cbn. auto.
Qed.

(** X8.  An Empty reader stays Empty, and [ReadBatch] keeps returning
    [io.EOF] without changing it, through any calls except a
    [WriteChannel] that supplies a non-nil slice; [WriteChannel(nil)],
    [NextChannel], [Reset], origin updates and reads all leave it Empty. *)
Theorem X8_empty_until_bytes (cr : ChannelInReader) (cs : list Call) :
  ready cr = false ->
  data cr = None ->
  forallb (fun c => negb (supplies_bytes c)) cs = true ->
  ready (calls cr cs) = false
  /\ data (calls cr cs) = None
  /\ ReadBatch (calls cr cs) = (calls cr cs, Failed io_EOF).
Proof.
  intros Hready Hd Hcs.
  assert (He : ready (calls cr cs) = false /\ data (calls cr cs) = None).
  { unfold calls. revert cr Hready Hd Hcs.
    induction cs as [| c cs IH]; intros cr Hready Hd Hcs; cbn [fold_left]; [auto |].
    cbn [forallb] in Hcs. apply andb_true_iff in Hcs as [Hc Hcs].
    apply negb_true_iff in Hc.
    destruct (call_keeps_empty cr c Hc (conj Hready Hd)) as [H1 H2].
    apply IH; assumption. }
  destruct He as [H1 H2]. repeat split; try assumption.
  unfold ReadBatch. rewrite H1, H2. reflexivity.
Qed.

Lemma call_keeps_ready (cr : ChannelInReader) (c : Call) :
  clears_ready c = false ->
  ready cr = true ->
  ready (call cr c) = true /\ data (call cr c) = data cr.
Proof.
  intros Hc Hready.
  destruct c as [o | | d | | | o]; cbn [clears_ready] in Hc;
    try discriminate; cbn [call].
  - unfold AddOrigin. destruct (Hash_eq_dec _ _); cbn; auto.
  - cbn. auto.
  - unfold ReadBatch. rewrite Hready. cbn [negb].
    destruct (Decode_frame cr) as (H1 & _ & _ & H4). split; congruence.
Qed.

(** X9.  Once the pipeline is initialised the reader stays Ready over the
    same bytes through any number of reads, whatever they return (a batch,
    [io.EOF] or another error), and through origin updates: only
    [WriteChannel], [NextChannel] and [Reset] clear the ready flag.  Each
    read of a Ready reader is the stream's [Decode] and nothing else. *)
Theorem X9_ready_until_cleared (cr : ChannelInReader) (cs : list Call) :
  ready cr = true ->
  forallb (fun c => negb (clears_ready c)) cs = true ->
  ready (calls cr cs) = true
  /\ data (calls cr cs) = data cr
  /\ ReadBatch (calls cr cs) = Decode (calls cr cs).
Proof.
  intros Hready Hcs.
  assert (He : ready (calls cr cs) = true /\ data (calls cr cs) = data cr).
  { unfold calls. revert cr Hready Hcs.
    induction cs as [| c cs IH]; intros cr Hready Hcs; cbn [fold_left]; [auto |].
    cbn [forallb] in Hcs. apply andb_true_iff in Hcs as [Hc Hcs].
    apply negb_true_iff in Hc.
    destruct (call_keeps_ready cr c Hc Hready) as [H1 H2].
    destruct (IH (call cr c) H1 Hcs) as [H3 H4]. split; congruence. }
  destruct He as [H1 H2]. repeat split; try assumption.
  unfold ReadBatch. rewrite H1. reflexivity.
Qed.

(** X10.  After [ReadBatch] the reader is Ready exactly when it was Ready
    before or it held bytes over which the filter could be initialised: a
    read that gets past the initialisation sets the ready flag even when
    the decode that follows fails, and no read clears it. *)
Theorem X10_ready_after_ReadBatch (cr : ChannelInReader) :
  ready (fst (ReadBatch cr)) = true
  <-> ready cr = true
      \/ exists d, data cr = Some d /\ init_error cr d = None.
Proof.
  unfold ReadBatch, init_error.
  destruct (ready cr) eqn:Hready; cbn [negb].
  - destruct (Decode_frame cr) as (H & _). rewrite H, Hready. tauto.
  - destruct (data cr) as [d |] eqn:Hd.
    + replace (match r cr with
               | Some rd0 => bytes_Reader_Reset rd0 d
               | None => bytes_NewReader d
               end) with (bytes_NewReader d) by (destruct (r cr); reflexivity).
      destruct (init_readZlib (readZlib cr) (bytes_NewReader d))
        as [[rd1 z] err] eqn:E.
      destruct err as [e |]; cbn [fst snd].
      * cbn. rewrite Hready. split; [discriminate |].
        intros [H | (d0 & Hd0 & H)]; [discriminate |].
        injection Hd0 as <-. rewrite E in H. discriminate.
      * match goal with |- context [Decode ?c] =>
          destruct (Decode_frame c) as (H & _) end.
        rewrite H. cbn. split; [| reflexivity]. intros _. right.
        exists d. split; [reflexivity |]. rewrite E. reflexivity.
    + cbn [fst]. rewrite Hready. split; [discriminate |].
      intros [H | (d0 & H & _)]; discriminate.
Qed.

(** X11.  [Reset] rewinds the channel: the read after [Reset] does what
    the read after writing the buffered bytes again would do, initialising
    the pipeline anew over them; the two readers differ in the origin
    alone, which [Reset] sets without any check. *)
Theorem X11_Reset_rewinds (cr : ChannelInReader) (o : L1BlockRef) :
  ReadBatch (Reset cr o)
  = (with_l1Origin (fst (ReadBatch (WriteChannel cr (data cr)))) o,
     snd (ReadBatch (WriteChannel cr (data cr)))).
Proof.
  replace (Reset cr o)
    with (with_originComplete (with_l1Origin (WriteChannel cr (data cr)) o)
            (originComplete cr))
    by (destruct cr; reflexivity).
  rewrite ReadBatch_origin_frame. f_equal.
  assert (Hc : originComplete (fst (ReadBatch (WriteChannel cr (data cr))))
               = originComplete cr)
    by (destruct (ReadBatch_frame (WriteChannel cr (data cr))) as (_ & H & _); exact H).
  rewrite <- Hc. generalize (fst (ReadBatch (WriteChannel cr (data cr)))). intros cr1.
  destruct cr1; reflexivity.
Qed.

Lemma last_cons_default (A : Type) (l : list A) (a d d' : A) :
  last (a :: l) d = last (a :: l) d'.
Proof.
  revert a. induction l as [| b l IH]; intros a; [reflexivity |].
  change (last (b :: l) d = last (b :: l) d'). apply IH.
Qed.

Lemma AddOrigin_chain (origins : list L1BlockRef) (cr : ChannelInReader) :
  chained (Hash (l1Origin cr)) origins ->
  l1Origin (calls cr (map CallAddOrigin origins)) = last origins (l1Origin cr)
  /\ ready (calls cr (map CallAddOrigin origins)) = ready cr
  /\ data (calls cr (map CallAddOrigin origins)) = data cr
  /\ (origins <> [] -> originComplete (calls cr (map CallAddOrigin origins)) = false).
Proof.
  unfold calls. revert cr.
  induction origins as [| o rest IH]; intros cr Hch; cbn [map fold_left].
  - repeat split; auto. congruence.
  - destruct Hch as [Hp Hrest]. cbn [call].
    assert (Hadd : fst (AddOrigin cr o)
                   = with_originComplete (with_l1Origin cr o) false).
    { unfold AddOrigin. destruct (Hash_eq_dec _ _); [reflexivity | congruence]. }
    rewrite Hadd.
    destruct (IH (with_originComplete (with_l1Origin cr o) false) Hrest)
      as (H1 & H2 & H3 & H4).
    split; [| split; [exact H2 | split; [exact H3 |]]].
    + rewrite H1. change (l1Origin (with_originComplete (with_l1Origin cr o) false)) with o.
      destruct rest as [| o' rest']; [reflexivity |].
      change (last (o :: o' :: rest') (l1Origin cr)) with (last (o' :: rest') (l1Origin cr)).
      apply last_cons_default.
    + intros _. destruct rest as [| o' rest']; [reflexivity |].
      apply H4. discriminate.
Qed.

(** X12.  A gapless chain of origins, each building on the one before and
    the first on the current origin, is accepted whole: after the
    [AddOrigin] calls the current origin is the last of the chain, the
    origin-complete flag is clear, and the buffered bytes and the ready
    flag are as they were. *)
Theorem X12_AddOrigin_accepts_chain (cr : ChannelInReader) (origins : list L1BlockRef) :
  chained (Hash (CurrentL1Origin cr)) origins ->
  origins <> [] ->
  CurrentL1Origin (calls cr (map CallAddOrigin origins)) = last origins (CurrentL1Origin cr)
  /\ OriginDone (calls cr (map CallAddOrigin origins)) = false
  /\ ready (calls cr (map CallAddOrigin origins)) = ready cr
  /\ data (calls cr (map CallAddOrigin origins)) = data cr.
Proof.
  intros Hch Hne.
  destruct (AddOrigin_chain origins cr Hch) as (H1 & H2 & H3 & H4).
  unfold CurrentL1Origin, OriginDone. auto.
Qed.

(** [WriteChannel] replaces whatever was buffered: of two writes the last
    one wins, a write after [NextChannel] is the write alone, and writing
    a nil slice is [NextChannel]. *)
Lemma WriteChannel_replaces (cr : ChannelInReader)
    (d1 d2 : option (list Byte.byte)) :
  WriteChannel (WriteChannel cr d1) d2 = WriteChannel cr d2
  /\ WriteChannel (NextChannel cr) d2 = WriteChannel cr d2
  /\ NextChannel (WriteChannel cr d1) = NextChannel cr
  /\ WriteChannel cr None = NextChannel cr.
Proof. repeat split. Qed.

(** X13.  Each channel gets a fresh start: what the read after
    [WriteChannel] returns is decided by the bytes written and by the zlib
    reader and RLP stream that are reused, not by the bytes buffered
    before, the position reached in them, the ready flag or the origin. *)
Theorem X13_fresh_start_per_channel (cr cr0 : ChannelInReader)
    (d : option (list Byte.byte)) :
  readZlib cr = readZlib cr0 ->
  readRLP cr = readRLP cr0 ->
  snd (ReadBatch (WriteChannel cr d)) = snd (ReadBatch (WriteChannel cr0 d)).
Proof. apply ReadBatch_after_WriteChannel. Qed.

End ReaderMore.

Lemma X8_empty_until_bytes_witness :
  ReadBatch (calls (@NewChannelInReader plain_pipeline)
               [CallReset origin_a; CallReadBatch; CallWriteChannel None;
                CallAddOrigin origin_b; CallNextChannel; CallReadBatch])
  = (calls NewChannelInReader
       [CallReset origin_a; CallReadBatch; CallWriteChannel None;
        CallAddOrigin origin_b; CallNextChannel; CallReadBatch],
     Failed io_EOF).
Proof.
  exact (proj2 (proj2 (X8_empty_until_bytes NewChannelInReader
                         [CallReset origin_a; CallReadBatch; CallWriteChannel None;
                          CallAddOrigin origin_b; CallNextChannel; CallReadBatch]
                         eq_refl eq_refl eq_refl))).
Defined.

Lemma X9_ready_until_cleared_witness :
  ready (calls (fst (ReadBatch (fed bad_value_channel)))
           [CallReadBatch; CallReadBatch; CallAddOrigin origin_b; CallReadBatch;
            CallEndOrigin; CallReadBatch])
  = true.
Proof.
  exact (proj1 (X9_ready_until_cleared (fst (ReadBatch (fed bad_value_channel)))
                  [CallReadBatch; CallReadBatch; CallAddOrigin origin_b; CallReadBatch;
                   CallEndOrigin; CallReadBatch]
                  eq_refl eq_refl)).
Defined.

Definition origin_c : L1BlockRef :=
  {| Hash := [Byte.x0c]; Number := 12; ParentHash := [Byte.x0b]; Time := 144 |}.

Lemma X12_AddOrigin_accepts_chain_witness :
  CurrentL1Origin (calls (fed good_channel) (map CallAddOrigin [origin_b; origin_c]))
  = origin_c.
Proof.
  exact (proj1 (X12_AddOrigin_accepts_chain (fed good_channel) [origin_b; origin_c]
                  (conj eq_refl (conj eq_refl I)) ltac:(discriminate))).
Defined.

Lemma X13_fresh_start_per_channel_witness :
  snd (ReadBatch (WriteChannel (fst (ReadBatch (fst (ReadBatch (fed bad_value_channel)))))
                    (Some good_channel)))
  = snd (ReadBatch (WriteChannel (fst (ReadBatch (fed good_channel))) (Some good_channel))).
Proof.
  exact (X13_fresh_start_per_channel
           (fst (ReadBatch (fst (ReadBatch (fed bad_value_channel)))))
           (fst (ReadBatch (fed good_channel)))
           (Some good_channel) eq_refl eq_refl).
Defined.

End Derive.
